(** * Smart-Leave-Planner: the leave optimiser of [utils.py]

    A shallow embedding of [LeaveOptimizer] (weekend enumeration, bridge and
    long-weekend detection, the greedy selector) together with the
    properties its specification states about it.

    Modelling conventions.
    - A Python [date], and a [datetime] at midnight, is its proleptic
      Gregorian ordinal ([date.toordinal()]), an integer; [d + timedelta(days=k)]
      is [d + k].  [datetime] only represents the ordinals of the years
      1..9999 and raises [OverflowError] beyond them; the model works on
      unbounded ordinals and so agrees with the code on every run that stays
      inside that range.
    - [self.holidays] is the insertion-ordered dictionary returned by the
      [holidays] package: an association list from dates to names.  The
      package may add the holidays of another year when asked about a date
      of that year; the code asks only after it has iterated over the
      dictionary, about a Monday it then rejects for lying past December 31,
      so the table of the requested year decides every answer.
    - [efficiency] is the exact quotient as a rational.  The code divides
      two integers into a float; the only quotients detection produces are
      4/1, 5/2, 6/3 and 7/4 (see [emitted_shape]), all of them exact in
      binary floating point.
    - [description] is kept as a tagged value holding the data the code
      formats into the label. *)

From Stdlib Require Import String ZArith List Bool Lia QArith.
From Stdlib Require Import Sorting.Sorted Permutation.
Import ListNotations.
Open Scope Z_scope.

(** ** The calendar: Python's [datetime] on ordinals *)

Module Calendar.

Definition date := Z.

Definition is_leap (year : Z) : bool :=
  (year mod 4 =? 0) && (negb (year mod 100 =? 0) || (year mod 400 =? 0)).

Definition days_before_year (year : Z) : Z :=
  let y := year - 1 in y * 365 + y / 4 - y / 100 + y / 400.

Definition DAYS_IN_MONTH : list Z :=
  [-1; 31; 28; 31; 30; 31; 30; 31; 31; 30; 31; 30; 31].

Definition DAYS_BEFORE_MONTH : list Z :=
  [-1; 0; 31; 59; 90; 120; 151; 181; 212; 243; 273; 304; 334].

Definition tbl (t : list Z) (i : Z) : Z := nth (Z.to_nat i) t 0.

Definition days_before_month (year month : Z) : Z :=
  tbl DAYS_BEFORE_MONTH month
  + (if (2 <? month) && is_leap year then 1 else 0).

(** [date(year, month, day).toordinal()] *)
Definition ymd2ord (year month day : Z) : date :=
  days_before_year year + days_before_month year month + day.

Definition DI400Y : Z := 146097.
Definition DI100Y : Z := 36524.
Definition DI4Y : Z := 1461.

(** [date.fromordinal(n)] as (year, month, day) *)
Definition ord2ymd (n0 : date) : Z * Z * Z :=
  let n := n0 - 1 in
  let n400 := n / DI400Y in
  let n := n mod DI400Y in
  let year := n400 * 400 + 1 in
  let n100 := n / DI100Y in
  let n := n mod DI100Y in
  let n4 := n / DI4Y in
  let n := n mod DI4Y in
  let n1 := n / 365 in
  let n := n mod 365 in
  let year := year + n100 * 100 + n4 * 4 + n1 in
  if (n1 =? 4) || (n100 =? 4) then (year - 1, 12, 31)
  else
    let leapyear := (n1 =? 3) && (negb (n4 =? 24) || (n100 =? 3)) in
    let month := Z.shiftr (n + 50) 5 in
    let preceding :=
      tbl DAYS_BEFORE_MONTH month
      + (if (2 <? month) && leapyear then 1 else 0) in
    if n <? preceding then
      let month := month - 1 in
      let preceding :=
        preceding
        - (tbl DAYS_IN_MONTH month
           + (if (month =? 2) && leapyear then 1 else 0)) in
      (year, month, n - preceding + 1)
    else (year, month, n - preceding + 1).

Definition year_of (d : date) : Z := fst (fst (ord2ymd d)).
Definition month (d : date) : Z := snd (fst (ord2ymd d)).
Definition day_of (d : date) : Z := snd (ord2ymd d).

(** [d.weekday()]: Monday is 0, Sunday is 6 *)
Definition weekday (d : date) : Z := (d + 6) mod 7.

(** [x in xs] on a list of integers *)
Definition mem (x : Z) (xs : list Z) : bool := existsb (Z.eqb x) xs.

(** [d.weekday() in [5, 6]] *)
Definition is_weekend (d : date) : bool := mem (weekday d) [5; 6].

End Calendar.
Import Calendar.

(** ** Data model *)

(** The label of an opportunity.  The code formats it into a string
    ("Bridge before <holiday name>", "Long weekend (Fri-Mon) starting
    <Friday>", ...); the constructor records which of the four formats was
    used and the value formatted into it.  No decision reads it. *)
Inductive label : Type :=
| BridgeBefore (holiday : string)
| BridgeAfter (holiday : string)
| LongWeekendStarting (friday : date)
| LongWeekendEnding (monday : date).

(** The dictionary built by the detectors. *)
Record opportunity : Type := mkOpportunity {
  leave_dates : list date;
  total_days_off : Z;
  leaves_needed : Z;
  efficiency : Q;
  description : label
}.

(** The attributes of a [LeaveOptimizer] instance. *)
Record LeaveOptimizer : Type := mkLeaveOptimizer {
  year : Z;
  country : string;
  holidays : list (date * string);
  weekends : list date
}.

(** Iterating [self.holidays] yields its keys in insertion order. *)
Definition holiday_dates (self : LeaveOptimizer) : list date :=
  map fst (holidays self).

(** [d in self.holidays] *)
Definition is_holiday (self : LeaveOptimizer) (d : date) : bool :=
  mem d (holiday_dates self).

(** [self.holidays[d]], for a key [d] of the dictionary *)
Fixpoint lookup_name (table : list (date * string)) (d : date) : string :=
  match table with
  | [] => EmptyString
  | (k, name) :: rest => if k =? d then name else lookup_name rest d
  end.

(** [a / b] on integers with [0 < b] *)
Definition truediv (a b : Z) : Q := Qmake a (Z.to_pos b).

(** The locals of the selection loop of [get_optimal_leave_days];
    [days_off] is the local [total_days_off]. *)
Record plan : Type := mkPlan {
  selected_leaves : list date;
  total_leaves_used : Z;
  days_off : Z;
  used_date_ranges : list (list date)
}.

(** ** [get_weekends] *)

(** Number of iterations of a day-by-day scan of [start_date .. end_date]. *)
Definition days_to_scan (start_date end_date : date) : nat :=
  Z.to_nat (end_date - start_date + 1).

Fixpoint weekends_loop (fuel : nat) (current_date end_date : date)
    (weekends : list date) : list date :=
  match fuel with
  | O => weekends
  | S fuel' =>
      if current_date <=? end_date then
        weekends_loop fuel' (current_date + 1) end_date
          (if is_weekend current_date
           then weekends ++ [current_date] else weekends)
      else weekends
  end.

Definition get_weekends (year : Z) : list date :=
  let start_date := ymd2ord year 1 1 in
  let end_date := ymd2ord year 12 31 in
  weekends_loop (S (days_to_scan start_date end_date)) start_date end_date [].

(** [LeaveOptimizer(year, country)]; [country_holidays] stands for what
    [holidays.country_holidays(country, years=year)] returns. *)
Definition init (year : Z) (country : string)
    (country_holidays : list (date * string)) : LeaveOptimizer :=
  {| year := year; country := country; holidays := country_holidays;
     weekends := get_weekends year |}.

(** ** Bridge detection *)

(** The first loop of [analyze_bridge_before] ([step = -1]) and of
    [analyze_bridge_after] ([step = 1]): collect working days until a
    weekend day or until four are collected.  Returns the final
    [current_date] and the collected days. *)
Fixpoint bridge_walk (fuel : nat) (step : Z) (current_date : date)
    (days : list date) : date * list date :=
  match fuel with
  | O => (current_date, days)
  | S fuel' =>
      if negb (is_weekend current_date) && (Z.of_nat (length days) <? 4) then
        bridge_walk fuel' step (current_date + step) (days ++ [current_date])
      else (current_date, days)
  end.

(** The second loop: the block of weekend days starting at [check_date]. *)
Fixpoint weekend_walk (fuel : nat) (step : Z) (check_date : date)
    (weekend_days : list date) : list date :=
  match fuel with
  | O => weekend_days
  | S fuel' =>
      if is_weekend check_date then
        weekend_walk fuel' step (check_date + step)
          (weekend_days ++ [check_date])
      else weekend_days
  end.

Definition is_empty {A : Type} (l : list A) : bool :=
  match l with [] => true | _ => false end.

(** The common body of [analyze_bridge_before] and [analyze_bridge_after],
    which differ only in the sign of the [timedelta] and in the label.  The
    first loop runs at most four times (its fifth test fails on the length)
    and the second at most twice, so the fuel given is never used up; see
    [bridge_walk_fuel] and [weekend_walk_fuel]. *)
Definition analyze_bridge (step : Z) (mk_label : string -> label)
    (self : LeaveOptimizer) (holiday_date : date) : option opportunity :=
  let '(current_date, days) := bridge_walk 5 step (holiday_date + step) [] in
  if is_weekend current_date && negb (is_empty days) then
    let weekend_days := weekend_walk 7 step current_date [] in
    let total_days_off :=
      Z.of_nat (length days) + Z.of_nat (length weekend_days) + 1 in
    let leaves_needed := Z.of_nat (length days) in
    if 0 <? leaves_needed then
      Some {| leave_dates := days;
              total_days_off := total_days_off;
              leaves_needed := leaves_needed;
              efficiency := truediv total_days_off leaves_needed;
              description :=
                mk_label (lookup_name (holidays self) holiday_date) |}
    else None
  else None.

Definition analyze_bridge_before : LeaveOptimizer -> date -> option opportunity :=
  analyze_bridge (-1) BridgeBefore.

Definition analyze_bridge_after : LeaveOptimizer -> date -> option opportunity :=
  analyze_bridge 1 BridgeAfter.

(** [if o: opportunities.append(o)] *)
Definition append_if (opportunities : list opportunity)
    (o : option opportunity) : list opportunity :=
  match o with
  | Some found => opportunities ++ [found]
  | None => opportunities
  end.

Fixpoint bridge_loop (self : LeaveOptimizer) (preferred_months : list Z)
    (pending : list date) (opportunities : list opportunity)
    : list opportunity :=
  match pending with
  | [] => opportunities
  | holiday_date :: rest =>
      if negb (mem (month holiday_date) preferred_months) then
        bridge_loop self preferred_months rest opportunities
      else
        let opportunities :=
          append_if opportunities (analyze_bridge_before self holiday_date) in
        let opportunities :=
          append_if opportunities (analyze_bridge_after self holiday_date) in
        bridge_loop self preferred_months rest opportunities
  end.

Definition find_bridge_opportunities (self : LeaveOptimizer)
    (preferred_months : list Z) : list opportunity :=
  bridge_loop self preferred_months (holiday_dates self) [].

(** ** Long-weekend detection *)

Definition long_weekend (d : date) (note : label) : opportunity :=
  {| leave_dates := [d]; total_days_off := 4; leaves_needed := 1;
     efficiency := 4; description := note |}.

Fixpoint long_weekend_loop (self : LeaveOptimizer) (preferred_months : list Z)
    (start_date end_date : date) (fuel : nat) (current_date : date)
    (opportunities : list opportunity) : list opportunity :=
  match fuel with
  | O => opportunities
  | S fuel' =>
      if current_date <=? end_date then
        if negb (mem (month current_date) preferred_months) then
          long_weekend_loop self preferred_months start_date end_date fuel'
            (current_date + 1) opportunities
        else
          let opportunities :=
            if weekday current_date =? 4 then
              let monday := current_date + 3 in
              if negb (is_holiday self monday) && (monday <=? end_date)
                 && mem (month monday) preferred_months
              then opportunities
                   ++ [long_weekend monday (LongWeekendStarting current_date)]
              else opportunities
            else if weekday current_date =? 0 then
              let friday := current_date - 3 in
              if negb (is_holiday self friday) && (start_date <=? friday)
                 && mem (month friday) preferred_months
              then opportunities
                   ++ [long_weekend friday (LongWeekendEnding current_date)]
              else opportunities
            else opportunities in
          long_weekend_loop self preferred_months start_date end_date fuel'
            (current_date + 1) opportunities
      else opportunities
  end.

Definition find_long_weekend_opportunities (self : LeaveOptimizer)
    (preferred_months : list Z) : list opportunity :=
  let start_date := ymd2ord (year self) 1 1 in
  let end_date := ymd2ord (year self) 12 31 in
  long_weekend_loop self preferred_months start_date end_date
    (S (days_to_scan start_date end_date)) start_date [].

(** ** The selector *)

(** [all_opportunities.sort(key=lambda x: x['efficiency'], reverse=True)]:
    Python's sort is stable, also under [reverse=True], so opportunities of
    equal efficiency keep their order.  A stable insertion sort: [x], which
    precedes every element of [l] in the input, moves only behind elements
    of strictly greater efficiency. *)
Fixpoint insert_desc (x : opportunity) (l : list opportunity)
    : list opportunity :=
  match l with
  | [] => [x]
  | y :: rest =>
      if Qle_bool (efficiency y) (efficiency x) then x :: l
      else y :: insert_desc x rest
  end.

Definition sort_by_efficiency (l : list opportunity) : list opportunity :=
  fold_right insert_desc [] l.

Definition has_date_overlap (new_dates : list date)
    (existing_ranges : list (list date)) : bool :=
  existsb (fun d => existsb (fun existing_range => mem d existing_range)
                      existing_ranges)
    new_dates.

Definition empty_plan : plan :=
  {| selected_leaves := []; total_leaves_used := 0; days_off := 0;
     used_date_ranges := [] |}.

(** The four updates made when an opportunity is accepted. *)
Definition accept (st : plan) (o : opportunity) : plan :=
  {| selected_leaves := selected_leaves st ++ leave_dates o;
     total_leaves_used := total_leaves_used st + leaves_needed o;
     days_off := days_off st + total_days_off o;
     used_date_ranges := used_date_ranges st ++ [leave_dates o] |}.

(** One iteration of [for opportunity in all_opportunities]. *)
Definition select_step (num_leaves : Z) (st : plan) (o : opportunity) : plan :=
  if negb (has_date_overlap (leave_dates o) (used_date_ranges st)) then
    if total_leaves_used st + leaves_needed o <=? num_leaves
    then accept st o else st
  else st.

Definition select_loop (num_leaves : Z) (opportunities : list opportunity)
    (st : plan) : plan :=
  fold_left (select_step num_leaves) opportunities st.

(** Sorting and selection: lines 46 to 63 of [get_optimal_leave_days]. *)
Definition selector (num_leaves : Z) (all_opportunities : list opportunity)
    : plan :=
  select_loop num_leaves (sort_by_efficiency all_opportunities) empty_plan.

Definition all_months : list Z := [1; 2; 3; 4; 5; 6; 7; 8; 9; 10; 11; 12].

(** [preferred_months=None] defaults to every month. *)
Definition resolve_months (preferred_months : option (list Z)) : list Z :=
  match preferred_months with
  | None => all_months
  | Some months => months
  end.

(** The list sorted and scanned by [get_optimal_leave_days]. *)
Definition all_opportunities (self : LeaveOptimizer)
    (preferred_months : list Z) : list opportunity :=
  find_bridge_opportunities self preferred_months
  ++ find_long_weekend_opportunities self preferred_months.

Definition optimal_plan (self : LeaveOptimizer) (num_leaves : Z)
    (preferred_months : option (list Z)) : plan :=
  selector num_leaves (all_opportunities self (resolve_months preferred_months)).

Definition get_optimal_leave_days (self : LeaveOptimizer) (num_leaves : Z)
    (preferred_months : option (list Z)) : list date * Z * Z :=
  let st := optimal_plan self num_leaves preferred_months in
  (selected_leaves st, days_off st, total_leaves_used st).

(** ** The caller: [main] of [app.py] *)

Module App.

Definition month_names : list string :=
  ["January"; "February"; "March"; "April"; "May"; "June"; "July";
   "August"; "September"; "October"; "November"; "December"]%string.

Definition month_name_to_num : list (string * Z) :=
  [("January", 1); ("February", 2); ("March", 3); ("April", 4); ("May", 5);
   ("June", 6); ("July", 7); ("August", 8); ("September", 9);
   ("October", 10); ("November", 11); ("December", 12)]%string.

(** [month_name_to_num[name]]; the multiselect only returns names of
    [month_names], all of them keys. *)
Fixpoint month_num (table : list (string * Z)) (name : string) : Z :=
  match table with
  | [] => 0
  | (k, v) :: rest => if String.eqb k name then v else month_num rest name
  end.

(** From the multiselect's value to the [preferred_month_nums] passed to
    [get_optimal_leave_days] (lines 64 to 74). *)
Definition preferred_month_nums (selection : list string) : list Z :=
  let preferred_months :=
    if is_empty selection then month_names else selection in
  if negb (is_empty preferred_months)
  then map (month_num month_name_to_num) preferred_months
  else all_months.

(** The call of line 81. *)
Definition main_call (optimizer : LeaveOptimizer) (num_leaves : Z)
    (selection : list string) : list date * Z * Z :=
  get_optimal_leave_days optimizer num_leaves
    (Some (preferred_month_nums selection)).

End App.

(** ** Vocabulary of the properties *)

(** The number of weekend days among the ordinals [1 .. n]: the multiples of
    7 are Sundays and their predecessors Saturdays. *)
Definition weekend_days_upto (n : Z) : Z := n / 7 + (n + 1) / 7.

(** 1 for [True], 0 for [False]. *)
Definition bool_to_nat (b : bool) : nat := if b then 1%nat else 0%nat.

(** What [bridge_walk] maintains: the days collected are working days,
    pairwise distinct, all strictly behind [current_date] in the direction
    of the walk, at most four, and the day just left is a working day. *)
Definition walk_inv (step : Z) (current_date : date) (days : list date) : Prop :=
  Forall (fun d => is_weekend d = false /\ 0 < (current_date - d) * step) days
  /\ NoDup days
  /\ (days = [] \/ is_weekend (current_date - step) = false)
  /\ (length days <= 4)%nat.

(** The shape shared by every opportunity the two detectors build. *)
Record emitted_shape (o : opportunity) : Prop := {
  shape_needed : leaves_needed o = Z.of_nat (length (leave_dates o));
  shape_cost : 1 <= leaves_needed o <= 4;
  shape_days_off : total_days_off o = leaves_needed o + 3;
  shape_efficiency :
    efficiency o = truediv (total_days_off o) (leaves_needed o);
  shape_working_days : Forall (fun d => is_weekend d = false) (leave_dates o);
  shape_distinct : NoDup (leave_dates o)
}.

(** [a] may stand before [b] in a list sorted by descending efficiency. *)
Definition eff_ge (a b : opportunity) : Prop :=
  (efficiency b <= efficiency a)%Q.

(** [a] costs at most as many leave days as [b]. *)
Definition cost_le (a b : opportunity) : Prop :=
  leaves_needed a <= leaves_needed b.

(** Two lists of dates without a common date. *)
Definition disjoint (a b : list date) : Prop :=
  forall d, In d a -> ~ In d b.

(** The plan kept by the loop: the selected dates are the accepted ranges
    in order, and no date occurs twice. *)
Definition plan_inv (st : plan) : Prop :=
  selected_leaves st = concat (used_date_ranges st)
  /\ NoDup (selected_leaves st).

(** [d] lies between January 1 and December 31 of [y]. *)
Definition within_year (y : Z) (d : date) : Prop :=
  ymd2ord y 1 1 <= d <= ymd2ord y 12 31.

(** The two opportunities of the weekend after [friday]: the one emitted at
    the Friday names the Monday, the one emitted at the Monday names the
    Friday. *)
Definition friday_anchored (friday : date) : opportunity :=
  long_weekend (friday + 3) (LongWeekendStarting friday).

Definition monday_anchored (friday : date) : opportunity :=
  long_weekend friday (LongWeekendEnding (friday + 3)).

(** ** Instances *)

(** The United Kingdom's bank holidays of 2024. *)
Definition uk_2024 : LeaveOptimizer :=
  init 2024 "GB"
    [(ymd2ord 2024 1 1, "New Year's Day"); (ymd2ord 2024 3 29, "Good Friday");
     (ymd2ord 2024 5 6, "May Day"); (ymd2ord 2024 5 27, "Spring Bank Holiday");
     (ymd2ord 2024 12 25, "Christmas Day");
     (ymd2ord 2024 12 26, "Boxing Day")]%string.

(** A holiday table holding New Year's Day 2025, a Wednesday. *)
Definition new_year_2025 : LeaveOptimizer :=
  init 2025 "GB" [(ymd2ord 2025 1 1, "New Year's Day")]%string.

(** A holiday table holding the substitute Boxing Day of 2020, Monday
    December 28. *)
Definition boxing_day_2020 : LeaveOptimizer :=
  init 2020 "GB" [(ymd2ord 2020 12 28, "Boxing Day (observed)")]%string.

(** The bridge before Christmas Day 2024, a Wednesday: Tuesday and Monday. *)
Definition christmas_bridge_2024 : opportunity :=
  {| leave_dates := [ymd2ord 2024 12 24; ymd2ord 2024 12 23];
     total_days_off := 5; leaves_needed := 2; efficiency := truediv 5 2;
     description := BridgeBefore "Christmas Day" |}.

(** ** The rest of the caller and of the calendar view *)

Module View.

(** [len([d for d in optimizer.weekends if d.year == year])], the count of
    weekends shown by [main] (line 104 of [app.py]). *)
Definition total_weekends (optimizer : LeaveOptimizer) (year : Z) : nat :=
  length (filter (fun d => year_of d =? year) (weekends optimizer)).

(** The class and the title [create_calendar_html] gives the cell of
    [date_obj] (lines 268 to 282 of [utils.py]). *)
Definition day_cell (holidays_dict : list (date * string))
    (optimal_leaves : list date) (date_obj : date) : string * string :=
  let day_class := "day-cell"%string in
  let day_class :=
    if is_weekend date_obj then (day_class ++ " weekend")%string
    else day_class in
  if mem date_obj (map fst holidays_dict) then
    ((day_class ++ " holiday")%string, lookup_name holidays_dict date_obj)
  else if mem date_obj optimal_leaves then
    ((day_class ++ " optimal-leave")%string, "Optimal Leave Day"%string)
  else (day_class, EmptyString).

End View.

(** ** Vocabulary of the further properties *)

(** [k] consecutive days from [d] on, in steps of [step]. *)
Fixpoint days_from (step : Z) (d : date) (k : nat) : list date :=
  match k with
  | O => []
  | S k' => d :: days_from step (d + step) k'
  end.

(** The bridge of [k] leave days next to the holiday [h], on the side
    [step] points to. *)
Definition bridge (step : Z) (h : date) (k : Z) (note : label) : opportunity :=
  {| leave_dates := days_from step (h + step) (Z.to_nat k);
     total_days_off := k + 3;
     leaves_needed := k;
     efficiency := truediv (k + 3) k;
     description := note |}.

(** How many bridges a holiday on the weekday [w] yields: before and after
    it from Tuesday to Thursday, after it only on a Monday, before it only
    on a Friday, none at a weekend. *)
Definition bridges_of_weekday (w : Z) : nat :=
  if (1 <=? w) && (w <=? 3) then 2%nat
  else if (w =? 0) || (w =? 4) then 1%nat
  else 0%nat.

(** The holidays bridge detection looks at. *)
Definition preferred_holidays (self : LeaveOptimizer)
    (preferred_months : list Z) : list date :=
  filter (fun h => mem (month h) preferred_months) (holiday_dates self).

(** [a] is a sublist of [b] that starts [b]. *)
Definition prefix_of {A : Type} (a b : list A) : Prop :=
  exists rest, b = a ++ rest.

(** The opportunities of efficiency [q], in the order of [l]. *)
Definition of_efficiency (q : Q) (l : list opportunity) : list opportunity :=
  filter (fun o => Qeq_bool (efficiency o) q) l.

(** What one holiday contributes to [find_bridge_opportunities]. *)
Definition bridges_of (self : LeaveOptimizer) (h : date) : list opportunity :=
  append_if (append_if [] (analyze_bridge_before self h))
    (analyze_bridge_after self h).

(** What the scan appends when it stands at [c]. *)
Definition long_weekend_at (self : LeaveOptimizer) (preferred_months : list Z)
    (start_date end_date c : date) : list opportunity :=
  if negb (mem (month c) preferred_months) then []
  else if weekday c =? 4 then
    if negb (is_holiday self (c + 3)) && (c + 3 <=? end_date)
       && mem (month (c + 3)) preferred_months
    then [long_weekend (c + 3) (LongWeekendStarting c)] else []
  else if weekday c =? 0 then
    if negb (is_holiday self (c - 3)) && (start_date <=? c - 3)
       && mem (month (c - 3)) preferred_months
    then [long_weekend (c - 3) (LongWeekendEnding c)] else []
  else [].

(** The accounts of a plan built from emitted opportunities. *)
Definition plan_accounts (st : plan) : Prop :=
  total_leaves_used st = Z.of_nat (length (selected_leaves st))
  /\ days_off st
     = total_leaves_used st + 3 * Z.of_nat (length (used_date_ranges st))
  /\ Z.of_nat (length (used_date_ranges st)) <= total_leaves_used st
     <= 4 * Z.of_nat (length (used_date_ranges st)).

(** The plan [b] continues the plan [a]. *)
Definition plan_extends (a b : plan) : Prop :=
  prefix_of (selected_leaves a) (selected_leaves b)
  /\ prefix_of (used_date_ranges a) (used_date_ranges b)
  /\ total_leaves_used a <= total_leaves_used b
  /\ days_off a <= days_off b.

(** ** The month grids of the calendar view *)

Module Grid.

(** [calendar.monthrange(year, month)[1]]: the number of days of the month. *)
Definition days_in_month (year month : Z) : Z :=
  tbl DAYS_IN_MONTH month + (if (month =? 2) && is_leap year then 1 else 0).

(** [itermonthdays(year, month)] of a [calendar.Calendar] whose weeks start
    on Monday: 0 for the days of the first week before the month, the days
    of the month, 0 for the days after it that complete the last week. *)
Definition itermonthdays (year month : Z) : list Z :=
  let day1 := weekday (ymd2ord year month 1) in
  let ndays := days_in_month year month in
  repeat 0 (Z.to_nat (day1 mod 7))
  ++ map Z.of_nat (seq 1 (Z.to_nat ndays))
  ++ repeat 0 (Z.to_nat ((- day1 - ndays) mod 7)).

(** [[days[i:i+7] for i in range(0, len(days), 7)]] *)
Fixpoint in_weeks (fuel : nat) (days : list Z) : list (list Z) :=
  match fuel with
  | O => []
  | S fuel' =>
      match days with
      | [] => []
      | _ => firstn 7 days :: in_weeks fuel' (skipn 7 days)
      end
  end.

(** [calendar.monthcalendar(year, month)] *)
Definition monthcalendar (year month : Z) : list (list Z) :=
  let days := itermonthdays year month in
  in_weeks (length days) days.

(** A cell of a month grid: the empty [div] of a day outside the month, or
    the [div] of a day with its class, its title and the day number. *)
Inductive cell : Type :=
| Blank
| Day (day_class title : string) (day : Z).

(** The cells [create_calendar_html] writes for one month (lines 261 to
    284), week by week. *)
Definition month_cells (year : Z) (holidays_dict : list (date * string))
    (optimal_leaves : list date) (month : Z) : list cell :=
  flat_map
    (fun week =>
       map (fun day =>
              if day =? 0 then Blank
              else
                let date_obj := ymd2ord year month day in
                let '(day_class, title) :=
                  View.day_cell holidays_dict optimal_leaves date_obj in
                Day day_class title day)
         week)
    (monthcalendar year month).

(** The rows of the view, two months each. *)
Definition quarters : list (list Z) :=
  [[1; 2]; [3; 4]; [5; 6]; [7; 8]; [9; 10]; [11; 12]].

(** The month grids in the order they are written: the month and its
    cells. *)
Definition calendar_grids (year : Z) (holidays_dict : list (date * string))
    (optimal_leaves : list date) : list (Z * list cell) :=
  flat_map
    (fun quarter =>
       map (fun month =>
              (month, month_cells year holidays_dict optimal_leaves month))
         quarter)
    quarters.

(** The dates of the day cells of a month grid, in order. *)
Definition grid_dates (year : Z) (grid : Z * list cell) : list date :=
  flat_map (fun c => match c with
                     | Blank => []
                     | Day _ _ day => [ymd2ord year (fst grid) day]
                     end)
    (snd grid).

End Grid.

(** ** Checks of the calendar *)

Example ord_2024_01_01 : ymd2ord 2024 1 1 = 738886 /\ weekday 738886 = 0.
Proof. split; reflexivity. Qed.

Example ymd_roundtrip_2024_02_29 : ord2ymd (ymd2ord 2024 2 29) = (2024, 2, 29).
Proof. reflexivity. Qed.

Example ymd_roundtrip_2024_12_31 : ord2ymd (ymd2ord 2024 12 31) = (2024, 12, 31).
Proof. reflexivity. Qed.

Example christmas_bridge_2024_emitted :
  In christmas_bridge_2024 (find_bridge_opportunities uk_2024 all_months).
Proof. vm_compute. auto 8. Qed.

Example optimal_leave_2024_budget_5 :
  get_optimal_leave_days uk_2024 5 None
  = ([ymd2ord 2024 12 27; ymd2ord 2024 1 8; ymd2ord 2024 1 5;
      ymd2ord 2024 1 15; ymd2ord 2024 1 12], 20, 5).
Proof. vm_compute. reflexivity. Qed.

(** ** Weekday arithmetic *)

Lemma mem_true_iff (x : Z) (xs : list Z) : mem x xs = true <-> In x xs.
Proof.
  unfold mem. rewrite existsb_exists. split.
  - intros [y [Hin Heq]]. apply Z.eqb_eq in Heq. now subst.
  - intros Hin. exists x. split; [assumption | apply Z.eqb_refl].
Qed.

Lemma mem_false_iff (x : Z) (xs : list Z) : mem x xs = false <-> ~ In x xs.
Proof.
  rewrite <- mem_true_iff. destruct (mem x xs); split; congruence.
Qed.

Lemma weekday_range (d : date) : 0 <= weekday d < 7.
Proof. unfold weekday. apply Z.mod_pos_bound. lia. Qed.

Lemma is_weekend_true (d : date) :
  is_weekend d = true <-> weekday d = 5 \/ weekday d = 6.
Proof.
  unfold is_weekend. rewrite mem_true_iff. simpl. intuition congruence.
Qed.

Lemma is_weekend_false (d : date) :
  is_weekend d = false <-> 0 <= weekday d <= 4.
Proof.
  pose proof (weekday_range d) as Hr.
  unfold is_weekend. rewrite mem_false_iff. simpl. lia.
Qed.

(** Moves the weekend tests of the context and of the goal to statements on
    [weekday], and those to linear arithmetic. *)
Ltac weekend_facts :=
  repeat match goal with
  | H : is_weekend _ = true |- _ => apply is_weekend_true in H
  | H : is_weekend _ = false |- _ => apply is_weekend_false in H
  | |- is_weekend _ = true => apply is_weekend_true
  | |- is_weekend _ = false => apply is_weekend_false
  end.

Ltac weekday_lia :=
  weekend_facts; unfold weekday in *; Z.div_mod_to_equations; lia.

Lemma weekday_friday_to_monday (d : date) : weekday d = 4 -> weekday (d + 3) = 0.
Proof. intros H. weekday_lia. Qed.

Lemma weekday_monday_to_friday (d : date) : weekday d = 0 -> weekday (d - 3) = 4.
Proof. intros H. weekday_lia. Qed.

(** ** Counting the weekend days of a year *)

Lemma weekend_days_upto_step (d : date) :
  weekend_days_upto d - weekend_days_upto (d - 1)
  = Z.of_nat (bool_to_nat (is_weekend d)).
Proof.
  unfold weekend_days_upto.
  destruct (is_weekend d) eqn:E; simpl; weekday_lia.
Qed.

Lemma weekends_loop_length (fuel : nat) :
  forall (current_date end_date : date) (acc : list date),
    end_date - current_date + 1 <= Z.of_nat fuel ->
    current_date <= end_date + 1 ->
    Z.of_nat (length (weekends_loop fuel current_date end_date acc))
    = Z.of_nat (length acc)
      + (weekend_days_upto end_date - weekend_days_upto (current_date - 1)).
Proof.
  induction fuel as [|fuel IH]; intros cur e acc Hfuel Hle; simpl.
  - assert (cur = e + 1) by lia. subst cur.
    replace (e + 1 - 1) with e by lia. lia.
  - destruct (cur <=? e) eqn:Hc.
    + apply Z.leb_le in Hc.
      rewrite IH by lia.
      replace (cur + 1 - 1) with cur by lia.
      pose proof (weekend_days_upto_step cur) as Hs.
      destruct (is_weekend cur); simpl in Hs.
      * rewrite length_app. simpl. lia.
      * lia.
    + apply Z.leb_gt in Hc.
      assert (cur = e + 1) by lia. subst cur.
      replace (e + 1 - 1) with e by lia. lia.
Qed.

(** The scan of [get_weekends] stops by its own test: any fuel that covers
    the days to scan gives the same list. *)
Lemma weekends_loop_fuel (fuel fuel' : nat) :
  forall (current_date end_date : date) (acc : list date),
    (days_to_scan current_date end_date <= fuel)%nat ->
    (days_to_scan current_date end_date <= fuel')%nat ->
    weekends_loop fuel current_date end_date acc
    = weekends_loop fuel' current_date end_date acc.
Proof.
  revert fuel'. unfold days_to_scan.
  induction fuel as [|fuel IH]; intros [|fuel'] cur e acc H1 H2; simpl;
    try reflexivity.
  - destruct (cur <=? e) eqn:Hc; [apply Z.leb_le in Hc; lia | reflexivity].
  - destruct (cur <=? e) eqn:Hc; [apply Z.leb_le in Hc; lia | reflexivity].
  - destruct (cur <=? e) eqn:Hc; [apply Z.leb_le in Hc | reflexivity].
    apply IH; lia.
Qed.

Lemma year_length (y : Z) :
  ymd2ord y 12 31 = ymd2ord y 1 1 + 364 + (if is_leap y then 1 else 0).
Proof.
  unfold ymd2ord, days_before_month.
  change (tbl DAYS_BEFORE_MONTH 12) with 334.
  change (tbl DAYS_BEFORE_MONTH 1) with 0.
  change (2 <? 12) with true. change (2 <? 1) with false.
  destruct (is_leap y); simpl andb; cbv iota; lia.
Qed.

(** Any 52 weeks hold 104 weekend days; the one day left over in a common
    year falls on the weekday of January 1, the two left over in a leap year
    on the weekdays of January 1 and 2. *)
Lemma get_weekends_length (y : Z) :
  length (get_weekends y)
  = (104 + bool_to_nat (is_weekend (ymd2ord y 1 1)%Z)
     + bool_to_nat (is_leap y && is_weekend (ymd2ord y 1 1 + 1)%Z))%nat.
Proof.
  apply Nat2Z.inj. unfold get_weekends.
  pose proof (year_length y) as Hy.
  assert (Hlen : 364 <= ymd2ord y 12 31 - ymd2ord y 1 1 <= 365)
    by (destruct (is_leap y); lia).
  rewrite weekends_loop_length by (unfold days_to_scan; lia).
  rewrite Hy. set (s := ymd2ord y 1 1). clearbody s. clear Hy Hlen.
  unfold weekend_days_upto. simpl length.
  destruct (is_leap y); simpl andb;
    destruct (is_weekend s) eqn:E1;
    try destruct (is_weekend (s + 1)) eqn:E2;
    unfold bool_to_nat; weekday_lia.
Qed.

(** ** The loops of bridge detection *)

(** The first loop ends by its own test once four days are collected. *)
Lemma bridge_walk_fuel (fuel fuel' : nat) :
  forall (step : Z) (current_date : date) (days : list date),
    (4 <= length days + fuel)%nat ->
    (4 <= length days + fuel')%nat ->
    bridge_walk fuel step current_date days
    = bridge_walk fuel' step current_date days.
Proof.
  revert fuel'.
  induction fuel as [|fuel IH]; intros [|fuel'] step cur days H1 H2; simpl;
    try reflexivity.
  - replace (Z.of_nat (length days) <? 4) with false
      by (symmetry; apply Z.ltb_ge; lia).
    now rewrite andb_false_r.
  - replace (Z.of_nat (length days) <? 4) with false
      by (symmetry; apply Z.ltb_ge; lia).
    now rewrite andb_false_r.
  - destruct (negb (is_weekend cur) && (Z.of_nat (length days) <? 4)) eqn:Hc;
      [| reflexivity].
    apply IH; rewrite length_app; simpl; lia.
Qed.

(** Three days in a row are never all weekend days, so the second loop ends
    by its own test within three iterations. *)
Lemma weekend_walk_fuel (fuel fuel' : nat) (step : Z) (check_date : date)
    (acc : list date) :
  step = 1 \/ step = -1 ->
  (3 <= fuel)%nat -> (3 <= fuel')%nat ->
  weekend_walk fuel step check_date acc
  = weekend_walk fuel' step check_date acc.
Proof.
  intros Hstep H1 H2.
  destruct fuel as [|[|[|fuel]]]; try lia.
  destruct fuel' as [|[|[|fuel']]]; try lia.
  simpl.
  destruct (is_weekend check_date) eqn:E0; [| reflexivity].
  destruct (is_weekend (check_date + step)) eqn:E1; [| reflexivity].
  destruct (is_weekend (check_date + step + step)) eqn:E2; [| reflexivity].
  exfalso. destruct Hstep; subst step; weekday_lia.
Qed.

Lemma walk_inv_init (step : Z) (d : date) : walk_inv step d [].
Proof.
  repeat split; [constructor | constructor | now left | simpl; lia].
Qed.

Lemma bridge_walk_inv (fuel : nat) (step : Z) :
  step = 1 \/ step = -1 ->
  forall (current_date : date) (days : list date) (c : date) (ds : list date),
    walk_inv step current_date days ->
    bridge_walk fuel step current_date days = (c, ds) ->
    walk_inv step c ds.
Proof.
  intros Hstep.
  induction fuel as [|fuel IH]; intros cur days c ds Hinv Hrun; simpl in Hrun.
  - now inversion Hrun; subst.
  - destruct (negb (is_weekend cur) && (Z.of_nat (length days) <? 4)) eqn:Hc.
    + apply andb_true_iff in Hc. destruct Hc as [Hwd Hlen].
      apply negb_true_iff in Hwd. apply Z.ltb_lt in Hlen.
      apply (IH _ _ _ _ ) in Hrun; [assumption |].
      destruct Hinv as (Hall & Hnd & _ & _).
      repeat split.
      * apply Forall_app. split.
        -- eapply Forall_impl; [| exact Hall].
           intros d [Hd Hpos]. split; [assumption |].
           destruct Hstep; subst step; lia.
        -- constructor; [| constructor]. split; [assumption |].
           destruct Hstep; subst step; lia.
      * apply Permutation_NoDup with (l := cur :: days).
        -- apply Permutation_cons_append.
        -- constructor; [| assumption].
           intros Hin. rewrite Forall_forall in Hall.
           destruct (Hall _ Hin) as [_ Hpos]. lia.
      * right. replace (cur + step - step) with cur by lia. assumption.
      * rewrite length_app. simpl. lia.
    + now inversion Hrun; subst.
Qed.

(** The weekend block reached from a working day has exactly two days. *)
Lemma weekend_walk_two (step : Z) (c : date) :
  step = 1 \/ step = -1 ->
  is_weekend c = true -> is_weekend (c - step) = false ->
  weekend_walk 7 step c [] = [c; c + step].
Proof.
  intros Hstep Hc Hprev.
  rewrite (weekend_walk_fuel 7 3) by (auto; lia).
  simpl. rewrite Hc.
  destruct (is_weekend (c + step)) eqn:E1.
  - destruct (is_weekend (c + step + step)) eqn:E2; [| reflexivity].
    exfalso. destruct Hstep; subst step; weekday_lia.
  - exfalso. destruct Hstep; subst step; weekday_lia.
Qed.

(** ** What detection emits *)

Lemma analyze_bridge_shape (step : Z) (mk_label : string -> label)
    (self : LeaveOptimizer) (holiday_date : date) (o : opportunity) :
  step = 1 \/ step = -1 ->
  analyze_bridge step mk_label self holiday_date = Some o ->
  emitted_shape o.
Proof.
  intros Hstep. unfold analyze_bridge.
  destruct (bridge_walk 5 step (holiday_date + step) []) as [c ds] eqn:Hwalk.
  apply (bridge_walk_inv 5 step Hstep) in Hwalk; [| apply walk_inv_init].
  destruct Hwalk as (Hall & Hnd & Hprev & Hlen).
  destruct (is_weekend c && negb (is_empty ds)) eqn:Hc; [| discriminate].
  apply andb_true_iff in Hc. destruct Hc as [Hwe Hne].
  destruct Hprev as [-> | Hprev]; [discriminate |].
  rewrite (weekend_walk_two step c Hstep Hwe Hprev).
  destruct (0 <? Z.of_nat (length ds)) eqn:Hpos; [| discriminate].
  apply Z.ltb_lt in Hpos.
  intros Heq. inversion Heq; subst o; clear Heq.
  constructor; simpl; try lia; try reflexivity; try assumption.
  eapply Forall_impl; [| exact Hall]. now intros d [Hd _].
Qed.

Lemma long_weekend_shape (d : date) (note : label) :
  is_weekend d = false -> emitted_shape (long_weekend d note).
Proof.
  intros Hd. constructor; simpl; try lia; try reflexivity.
  - now constructor.
  - constructor; [intros [] | constructor].
Qed.

Lemma append_if_Forall (P : opportunity -> Prop) (acc : list opportunity)
    (o : option opportunity) :
  Forall P acc -> (forall x, o = Some x -> P x) -> Forall P (append_if acc o).
Proof.
  intros Hacc Ho. destruct o as [x|]; simpl; [| assumption].
  apply Forall_app. split; [assumption |]. constructor; auto.
Qed.

Lemma bridge_loop_Forall (P : opportunity -> Prop) (self : LeaveOptimizer)
    (preferred_months : list Z) :
  (forall h o, analyze_bridge_before self h = Some o -> P o) ->
  (forall h o, analyze_bridge_after self h = Some o -> P o) ->
  forall (pending : list date) (acc : list opportunity),
    Forall P acc -> Forall P (bridge_loop self preferred_months pending acc).
Proof.
  intros Hb Ha.
  induction pending as [|h rest IH]; intros acc Hacc; simpl; [assumption |].
  destruct (negb (mem (month h) preferred_months)); [now apply IH |].
  apply IH. apply append_if_Forall; [apply append_if_Forall |]; eauto.
Qed.

Lemma find_bridge_shape (self : LeaveOptimizer) (preferred_months : list Z) :
  Forall emitted_shape (find_bridge_opportunities self preferred_months).
Proof.
  apply bridge_loop_Forall; [| | constructor]; intros h o Ho.
  - apply (analyze_bridge_shape (-1) BridgeBefore self h); auto.
  - apply (analyze_bridge_shape 1 BridgeAfter self h); auto.
Qed.

(** What the long-weekend scan maintains, for a property [P] of the date it
    names when it reaches a Friday or a Monday. *)
Lemma long_weekend_loop_Forall (P : opportunity -> Prop)
    (self : LeaveOptimizer) (preferred_months : list Z)
    (start_date end_date : date) :
  (forall cur note, start_date <= cur <= end_date -> weekday cur = 4 ->
     cur + 3 <= end_date -> P (long_weekend (cur + 3) note)) ->
  (forall cur note, start_date <= cur <= end_date -> weekday cur = 0 ->
     start_date <= cur - 3 -> P (long_weekend (cur - 3) note)) ->
  forall (fuel : nat) (current_date : date) (acc : list opportunity),
    start_date <= current_date ->
    Forall P acc ->
    Forall P (long_weekend_loop self preferred_months start_date end_date
                fuel current_date acc).
Proof.
  intros Hfri Hmon.
  induction fuel as [|fuel IH]; intros cur acc Hcur Hacc; simpl;
    [assumption |].
  destruct (cur <=? end_date) eqn:Hle; [| assumption].
  apply Z.leb_le in Hle.
  destruct (negb (mem (month cur) preferred_months)); [apply IH; [lia | auto] |].
  apply IH; [lia |].
  destruct (weekday cur =? 4) eqn:H4.
  - apply Z.eqb_eq in H4.
    destruct (negb (is_holiday self (cur + 3)) && (cur + 3 <=? end_date)
              && mem (month (cur + 3)) preferred_months) eqn:Hc;
      [| assumption].
    apply andb_true_iff in Hc. destruct Hc as [Hc _].
    apply andb_true_iff in Hc. destruct Hc as [_ Hc]. apply Z.leb_le in Hc.
    apply Forall_app. split; [assumption |].
    constructor; [| constructor]. apply Hfri; auto; lia.
  - destruct (weekday cur =? 0) eqn:H0; [| assumption].
    apply Z.eqb_eq in H0.
    destruct (negb (is_holiday self (cur - 3)) && (start_date <=? cur - 3)
              && mem (month (cur - 3)) preferred_months) eqn:Hc;
      [| assumption].
    apply andb_true_iff in Hc. destruct Hc as [Hc _].
    apply andb_true_iff in Hc. destruct Hc as [_ Hc]. apply Z.leb_le in Hc.
    apply Forall_app. split; [assumption |].
    constructor; [| constructor]. apply Hmon; auto; lia.
Qed.

Lemma find_long_weekend_shape (self : LeaveOptimizer)
    (preferred_months : list Z) :
  Forall emitted_shape (find_long_weekend_opportunities self preferred_months).
Proof.
  apply long_weekend_loop_Forall; [| | lia | constructor];
    intros cur note _ Hwd _; apply long_weekend_shape.
  - apply is_weekend_false. rewrite (weekday_friday_to_monday cur Hwd). lia.
  - apply is_weekend_false. rewrite (weekday_monday_to_friday cur Hwd). lia.
Qed.

Lemma all_opportunities_shape (self : LeaveOptimizer)
    (preferred_months : list Z) :
  Forall emitted_shape (all_opportunities self preferred_months).
Proof.
  apply Forall_app. split;
    [apply find_bridge_shape | apply find_long_weekend_shape].
Qed.

(** The long-weekend scan, like that of [get_weekends], stops by its own
    test. *)
Lemma long_weekend_loop_fuel (self : LeaveOptimizer)
    (preferred_months : list Z) (start_date end_date : date)
    (fuel fuel' : nat) :
  forall (current_date : date) (acc : list opportunity),
    (days_to_scan current_date end_date <= fuel)%nat ->
    (days_to_scan current_date end_date <= fuel')%nat ->
    long_weekend_loop self preferred_months start_date end_date fuel
      current_date acc
    = long_weekend_loop self preferred_months start_date end_date fuel'
        current_date acc.
Proof.
  revert fuel'. unfold days_to_scan.
  induction fuel as [|fuel IH]; intros [|fuel'] cur acc H1 H2; simpl;
    try reflexivity.
  - destruct (cur <=? end_date) eqn:Hc;
      [apply Z.leb_le in Hc; lia | reflexivity].
  - destruct (cur <=? end_date) eqn:Hc;
      [apply Z.leb_le in Hc; lia | reflexivity].
  - destruct (cur <=? end_date) eqn:Hc; [apply Z.leb_le in Hc | reflexivity].
    destruct (negb (mem (month cur) preferred_months)); apply IH; lia.
Qed.

(** Whatever fuel covers the year, the two scans return what the code
    returns. *)
Lemma get_weekends_any_fuel (y : Z) (fuel : nat) :
  (days_to_scan (ymd2ord y 1 1) (ymd2ord y 12 31) <= fuel)%nat ->
  weekends_loop fuel (ymd2ord y 1 1) (ymd2ord y 12 31) [] = get_weekends y.
Proof.
  intros H. unfold get_weekends. apply weekends_loop_fuel; [exact H | lia].
Qed.

Lemma find_long_weekend_any_fuel (self : LeaveOptimizer)
    (preferred_months : list Z) (fuel : nat) :
  let start_date := ymd2ord (year self) 1 1 in
  let end_date := ymd2ord (year self) 12 31 in
  (days_to_scan start_date end_date <= fuel)%nat ->
  long_weekend_loop self preferred_months start_date end_date fuel
    start_date []
  = find_long_weekend_opportunities self preferred_months.
Proof.
  intros start_date end_date H. unfold find_long_weekend_opportunities.
  apply long_weekend_loop_fuel; [exact H | lia].
Qed.

(** ** Sorting by efficiency *)

Lemma insert_desc_perm (x : opportunity) (l : list opportunity) :
  Permutation (x :: l) (insert_desc x l).
Proof.
  induction l as [|y rest IH]; simpl; [reflexivity |].
  destruct (Qle_bool (efficiency y) (efficiency x)); [reflexivity |].
  rewrite perm_swap. now apply perm_skip.
Qed.

Lemma sort_by_efficiency_perm (l : list opportunity) :
  Permutation l (sort_by_efficiency l).
Proof.
  induction l as [|x l IH]; simpl; [reflexivity |].
  rewrite <- insert_desc_perm. now apply perm_skip.
Qed.

Lemma sort_by_efficiency_Forall (P : opportunity -> Prop)
    (l : list opportunity) :
  Forall P l -> Forall P (sort_by_efficiency l).
Proof.
  intros H. eapply Permutation_Forall; [apply sort_by_efficiency_perm | exact H].
Qed.

Lemma insert_desc_sorted (x : opportunity) (l : list opportunity) :
  StronglySorted eff_ge l -> StronglySorted eff_ge (insert_desc x l).
Proof.
  induction l as [|y rest IH]; intros Hs; simpl.
  - constructor; constructor.
  - inversion Hs as [|? ? Hrest Hy]; subst.
    destruct (Qle_bool (efficiency y) (efficiency x)) eqn:Hc.
    + apply Qle_bool_iff in Hc.
      constructor; [assumption |]. constructor; [exact Hc |].
      eapply Forall_impl; [| exact Hy].
      intros z Hz. unfold eff_ge in *. eapply Qle_trans; eassumption.
    + assert (Hlt : (efficiency x < efficiency y)%Q).
      { apply Qnot_le_lt. intros Hle. apply Qle_bool_iff in Hle. congruence. }
      constructor; [now apply IH |].
      eapply Permutation_Forall; [apply insert_desc_perm |].
      constructor; [| assumption]. now apply Qlt_le_weak.
Qed.

Lemma sort_by_efficiency_sorted (l : list opportunity) :
  StronglySorted eff_ge (sort_by_efficiency l).
Proof.
  induction l as [|x l IH]; simpl; [constructor | now apply insert_desc_sorted].
Qed.

(** Among emitted opportunities a higher efficiency means a lower cost:
    the efficiency is [(c + 3) / c] for the cost [c]. *)
Lemma eff_ge_cost (a b : opportunity) :
  emitted_shape a -> emitted_shape b -> eff_ge a b ->
  leaves_needed a <= leaves_needed b.
Proof.
  intros [_ Ca Ta Ea _ _] [_ Cb Tb Eb _ _]. unfold eff_ge.
  rewrite Ea, Eb, Ta, Tb. unfold truediv, Qle. simpl.
  rewrite !Z2Pos.id by lia. nia.
Qed.

Lemma sorted_by_cost (l : list opportunity) :
  Forall emitted_shape l -> StronglySorted eff_ge l ->
  StronglySorted cost_le l.
Proof.
  induction l as [|x l IH]; intros Hsh Hs; [constructor |].
  inversion Hsh as [|? ? Hx Hl]; subst.
  inversion Hs as [|? ? Hrest Hge]; subst.
  constructor; [now apply IH |].
  rewrite Forall_forall in *. intros y Hy.
  apply eff_ge_cost; auto.
Qed.

(** ** The selection loop *)

Lemma select_loop_cons (n : Z) (o : opportunity) (l : list opportunity)
    (st : plan) :
  select_loop n (o :: l) st = select_loop n l (select_step n st o).
Proof. reflexivity. Qed.

(** The three outcomes of one iteration. *)
Lemma select_step_overlap (n : Z) (st : plan) (o : opportunity) :
  has_date_overlap (leave_dates o) (used_date_ranges st) = true ->
  select_step n st o = st.
Proof. intros H. unfold select_step. now rewrite H. Qed.

Lemma select_step_over_budget (n : Z) (st : plan) (o : opportunity) :
  n < total_leaves_used st + leaves_needed o ->
  select_step n st o = st.
Proof.
  intros H. unfold select_step.
  destruct (negb _); [| reflexivity].
  now replace (total_leaves_used st + leaves_needed o <=? n) with false
    by (symmetry; apply Z.leb_gt; lia).
Qed.

Lemma select_step_accept (n : Z) (st : plan) (o : opportunity) :
  has_date_overlap (leave_dates o) (used_date_ranges st) = false ->
  total_leaves_used st + leaves_needed o <= n ->
  select_step n st o = accept st o.
Proof.
  intros Hov Hfit. unfold select_step. rewrite Hov. simpl.
  now replace (total_leaves_used st + leaves_needed o <=? n) with true
    by (symmetry; apply Z.leb_le; lia).
Qed.

Lemma select_step_cases (n : Z) (st : plan) (o : opportunity) :
  (select_step n st o = st)
  \/ (has_date_overlap (leave_dates o) (used_date_ranges st) = false
      /\ total_leaves_used st + leaves_needed o <= n
      /\ select_step n st o = accept st o).
Proof.
  destruct (has_date_overlap (leave_dates o) (used_date_ranges st)) eqn:Hov.
  - left. now apply select_step_overlap.
  - destruct (Z_le_gt_dec (total_leaves_used st + leaves_needed o) n) as [H|H].
    + right. repeat split; auto. now apply select_step_accept.
    + left. apply select_step_over_budget. lia.
Qed.

(** A property of plans kept by every acceptance of an opportunity of [l]
    is kept by the whole scan. *)
Lemma select_loop_invariant (I : plan -> Prop) (n : Z) (l : list opportunity) :
  (forall st o, In o l -> I st ->
     has_date_overlap (leave_dates o) (used_date_ranges st) = false ->
     total_leaves_used st + leaves_needed o <= n ->
     I (accept st o)) ->
  forall st, I st -> I (select_loop n l st).
Proof.
  induction l as [|o l IH]; intros Hstep st Hst; [assumption |].
  rewrite select_loop_cons. apply IH.
  - intros st' o' Hin. apply Hstep. now right.
  - destruct (select_step_cases n st o) as [-> | (Hov & Hfit & ->)];
      [assumption |].
    apply Hstep; auto. now left.
Qed.

Lemma select_loop_stuck (n : Z) (l : list opportunity) (st : plan) :
  Forall (fun o => n < total_leaves_used st + leaves_needed o) l ->
  select_loop n l st = st.
Proof.
  induction l as [|o l IH]; intros H; [reflexivity |].
  inversion H as [|? ? Ho Hl]; subst.
  rewrite select_loop_cons, select_step_over_budget by assumption.
  now apply IH.
Qed.

(** No shared date: what [has_date_overlap] decides. *)
Lemma has_date_overlap_true (new_dates : list date)
    (existing_ranges : list (list date)) :
  has_date_overlap new_dates existing_ranges = true
  <-> exists d, In d new_dates /\ In d (concat existing_ranges).
Proof.
  unfold has_date_overlap. rewrite existsb_exists. split.
  - intros [d [Hd Hex]]. apply existsb_exists in Hex.
    destruct Hex as [r [Hr Hmem]]. apply mem_true_iff in Hmem.
    exists d. split; [assumption |]. apply in_concat. eauto.
  - intros [d [Hd Hin]]. apply in_concat in Hin.
    destruct Hin as [r [Hr Hdr]].
    exists d. split; [assumption |]. apply existsb_exists.
    exists r. split; [assumption |]. now apply mem_true_iff.
Qed.

Lemma has_date_overlap_false (new_dates : list date)
    (existing_ranges : list (list date)) :
  has_date_overlap new_dates existing_ranges = false
  <-> forall d, In d new_dates -> ~ In d (concat existing_ranges).
Proof.
  split.
  - intros H d Hd Hin.
    assert (Ht : has_date_overlap new_dates existing_ranges = true)
      by (apply has_date_overlap_true; eauto).
    congruence.
  - intros H.
    destruct (has_date_overlap new_dates existing_ranges) eqn:E;
      [| reflexivity].
    apply has_date_overlap_true in E. destruct E as [d [Hd Hin]].
    now elim (H d Hd).
Qed.

Lemma NoDup_split (A : Type) (l l' : list A) :
  NoDup (l ++ l') -> NoDup l /\ NoDup l' /\ (forall x, In x l -> ~ In x l').
Proof.
  induction l as [|a l IH]; simpl; intros H.
  - repeat split; [constructor | assumption | tauto].
  - inversion H as [|? ? Hna Hnd]; subst.
    destruct (IH Hnd) as (Hl & Hl' & Hd).
    repeat split; [| assumption |].
    + constructor; [| assumption]. intros Hin. apply Hna.
      apply in_or_app. now left.
    + intros x [-> | Hx]; [| now apply Hd].
      intros Hin. apply Hna. apply in_or_app. now right.
Qed.

Lemma NoDup_join (A : Type) (l l' : list A) :
  NoDup l -> NoDup l' -> (forall x, In x l -> ~ In x l') -> NoDup (l ++ l').
Proof.
  induction l as [|a l IH]; simpl; intros Hl Hl' Hd; [assumption |].
  inversion Hl as [|? ? Hna Hnd]; subst.
  constructor.
  - intros Hin. apply in_app_or in Hin. destruct Hin as [Hin | Hin];
      [contradiction | apply (Hd a); auto].
  - apply IH; auto.
Qed.

Lemma NoDup_concat_disjoint (rs : list (list date)) :
  NoDup (concat rs) -> ForallOrdPairs disjoint rs.
Proof.
  induction rs as [|r rs IH]; simpl; intros H; [constructor |].
  apply NoDup_split in H. destruct H as (_ & Hrs & Hd).
  constructor; [| now apply IH].
  apply Forall_forall. intros r' Hr' d Hd1 Hd2.
  apply (Hd d Hd1). apply in_concat. eauto.
Qed.

Lemma accept_plan_inv (st : plan) (o : opportunity) :
  plan_inv st -> NoDup (leave_dates o) ->
  has_date_overlap (leave_dates o) (used_date_ranges st) = false ->
  plan_inv (accept st o).
Proof.
  intros [Hsel Hnd] Ho Hov. unfold plan_inv. simpl. split.
  - rewrite concat_app. simpl. rewrite app_nil_r. now rewrite Hsel.
  - apply NoDup_join; [assumption | assumption |].
    intros d Hd Hin.
    rewrite has_date_overlap_false in Hov.
    apply (Hov d Hin). now rewrite <- Hsel.
Qed.

(** Raising the budget by one on a list sorted by ascending cost: the two
    scans agree until an opportunity fits the larger budget only; from then
    on neither accepts anything. *)
Lemma select_loop_monotone (n : Z) (l : list opportunity) :
  StronglySorted cost_le l ->
  Forall (fun o => 1 <= leaves_needed o /\ 0 <= total_days_off o) l ->
  forall st,
    days_off (select_loop n l st) <= days_off (select_loop (n + 1) l st).
Proof.
  induction l as [|o l IH]; intros Hs Hpos st; [simpl; lia |].
  inversion Hs as [|? ? Hsl Hle]; subst.
  inversion Hpos as [|? ? [Hc Ht] Hposl]; subst.
  rewrite !select_loop_cons.
  destruct (has_date_overlap (leave_dates o) (used_date_ranges st)) eqn:Hov.
  { rewrite !select_step_overlap by assumption. now apply IH. }
  destruct (Z_le_gt_dec (total_leaves_used st + leaves_needed o) n) as [H|H].
  { rewrite !select_step_accept by (auto; lia). now apply IH. }
  destruct (Z.eq_dec (total_leaves_used st + leaves_needed o) (n + 1)) as [E|E].
  - rewrite (select_step_over_budget n) by lia.
    rewrite (select_step_accept (n + 1)) by (auto; lia).
    rewrite !select_loop_stuck; simpl.
    + lia.
    + eapply Forall_impl; [| exact Hposl]. simpl. intros o' [Hc' _]. lia.
    + rewrite Forall_forall in *. intros o' Hin.
      specialize (Hle o' Hin). unfold cost_le in Hle. lia.
  - rewrite !select_step_over_budget by lia. now apply IH.
Qed.

(** ** Facts used by the claims *)

Lemma has_date_overlap_single (d : date) (ranges : list (list date))
    (r : list date) :
  has_date_overlap [d] ranges = false -> ~ In d r ->
  has_date_overlap [d] (ranges ++ [r]) = false.
Proof.
  intros Hov Hr. rewrite has_date_overlap_false in *.
  intros x Hx Hin. rewrite concat_app in Hin. simpl in Hin.
  rewrite app_nil_r in Hin. apply in_app_or in Hin.
  destruct Hin as [Hin | Hin]; [now apply (Hov x Hx) |].
  destruct Hx as [<- | []]. contradiction.
Qed.

Lemma bridge_loop_no_months (self : LeaveOptimizer) (pending : list date)
    (acc : list opportunity) :
  bridge_loop self [] pending acc = acc.
Proof. induction pending as [|h rest IH]; simpl; auto. Qed.

Lemma long_weekend_loop_no_months (self : LeaveOptimizer)
    (start_date end_date : date) (fuel : nat) :
  forall (current_date : date) (acc : list opportunity),
    long_weekend_loop self [] start_date end_date fuel current_date acc = acc.
Proof.
  induction fuel as [|fuel IH]; intros cur acc; simpl; [reflexivity |].
  destruct (cur <=? end_date); [apply IH | reflexivity].
Qed.

Lemma all_opportunities_no_months (self : LeaveOptimizer) :
  all_opportunities self [] = [].
Proof.
  unfold all_opportunities, find_bridge_opportunities,
    find_long_weekend_opportunities.
  now rewrite bridge_loop_no_months, long_weekend_loop_no_months.
Qed.

Lemma truediv_quotient (a b : Z) :
  0 < b -> (truediv a b == inject_Z a / inject_Z b)%Q.
Proof.
  intros Hb. destruct b as [|p|p]; try lia.
  unfold truediv, Qeq, Qdiv, Qmult, Qinv, inject_Z. simpl. lia.
Qed.

Lemma emitted_efficiency (o : opportunity) :
  emitted_shape o ->
  (efficiency o == inject_Z (total_days_off o) / inject_Z (leaves_needed o))%Q
  /\ (1 <= efficiency o)%Q.
Proof.
  intros [_ Hc Ht He _ _]. rewrite He. split.
  - apply truediv_quotient. lia.
  - unfold truediv, Qle. simpl. rewrite Z2Pos.id by lia. lia.
Qed.

Lemma sorted_opportunities_shape (self : LeaveOptimizer)
    (preferred_months : list Z) :
  Forall emitted_shape
    (sort_by_efficiency (all_opportunities self preferred_months)).
Proof. apply sort_by_efficiency_Forall, all_opportunities_shape. Qed.

Lemma optimal_plan_inv (self : LeaveOptimizer) (num_leaves : Z)
    (preferred_months : option (list Z)) :
  plan_inv (optimal_plan self num_leaves preferred_months).
Proof.
  unfold optimal_plan, selector.
  pose proof (sorted_opportunities_shape self (resolve_months preferred_months))
    as Hsh.
  rewrite Forall_forall in Hsh.
  apply select_loop_invariant.
  - intros st o Hin Hst Hov _. apply accept_plan_inv; auto.
    apply shape_distinct. auto.
  - split; [reflexivity | constructor].
Qed.

(** ** The claims *)

(** C1, as stated, fails.  In January 2024 the scan emits both opportunities
    of the weekend of Friday 5 and Monday 8; they share no date, and with a
    budget of 2 the selector accepts both: the returned dates are the Monday
    and the Friday and the pair accounts for 8 days off. *)
Lemma same_weekend_both_accepted_2024 :
  let friday := ymd2ord 2024 1 5 in
  let opportunities := find_long_weekend_opportunities uk_2024 [1] in
  In (friday_anchored friday) opportunities
  /\ In (monday_anchored friday) opportunities
  /\ has_date_overlap (leave_dates (monday_anchored friday))
       [leave_dates (friday_anchored friday)] = false
  /\ get_optimal_leave_days uk_2024 2 (Some [1])
     = ([friday + 3; friday], 8, 2).
Proof.
  vm_compute. repeat split; auto.
Qed.

(** C1, amended: the two opportunities of one Friday-Monday weekend have
    the leave dates [{Monday}] and [{Friday}], which share no date, so
    [has_date_overlap] does not hold between them; whenever neither date is
    already selected and the budget has room for two more leave days, the
    selector accepts both, and the pair adds 8 to the days off. *)
Theorem same_weekend_pair_accepted (friday : date) (num_leaves : Z)
    (st : plan) (rest : list opportunity) :
  has_date_overlap [friday + 3] (used_date_ranges st) = false ->
  has_date_overlap [friday] (used_date_ranges st) = false ->
  total_leaves_used st + 2 <= num_leaves ->
  has_date_overlap (leave_dates (monday_anchored friday))
    [leave_dates (friday_anchored friday)] = false
  /\ select_loop num_leaves
       (friday_anchored friday :: monday_anchored friday :: rest) st
     = select_loop num_leaves rest
         {| selected_leaves := selected_leaves st ++ [friday + 3; friday];
            total_leaves_used := total_leaves_used st + 2;
            days_off := days_off st + 8;
            used_date_ranges :=
              used_date_ranges st ++ [[friday + 3]; [friday]] |}.
Proof.
  intros Hmon Hfri Hroom. split.
  - apply (has_date_overlap_single friday [] [friday + 3]); [reflexivity |].
    simpl. lia.
  - rewrite !select_loop_cons.
    rewrite (select_step_accept num_leaves st) by (simpl; auto; lia).
    rewrite select_step_accept; simpl.
    + unfold accept. simpl. f_equal. f_equal.
      * now rewrite <- app_assoc.
      * lia.
      * lia.
      * now rewrite <- app_assoc.
    + apply has_date_overlap_single; [assumption |]. simpl. lia.
    + lia.
Qed.

Lemma same_weekend_pair_accepted_witness :
  let friday := ymd2ord 2024 1 5 in
  has_date_overlap [friday + 3] (used_date_ranges empty_plan) = false
  /\ has_date_overlap [friday] (used_date_ranges empty_plan) = false
  /\ total_leaves_used empty_plan + 2 <= 2
  /\ days_off
       (select_loop 2 [friday_anchored friday; monday_anchored friday]
          empty_plan) = 8.
Proof.
  intros friday.
  assert (H1 : has_date_overlap [friday + 3] (used_date_ranges empty_plan)
               = false) by reflexivity.
  assert (H2 : has_date_overlap [friday] (used_date_ranges empty_plan) = false)
    by reflexivity.
  assert (H3 : total_leaves_used empty_plan + 2 <= 2) by (simpl; lia).
  split; [exact H1 |]. split; [exact H2 |]. split; [exact H3 |].
  destruct (same_weekend_pair_accepted friday 2 empty_plan [] H1 H2 H3)
    as [_ Hsel].
  rewrite Hsel. reflexivity.
Defined.

(** C2, as stated, fails.  With a budget of 0 the call returns a result,
    the empty selection, and detection has run: it found 109
    opportunities. *)
Lemma zero_budget_returns_2024 :
  get_optimal_leave_days uk_2024 0 None = ([], 0, 0)
  /\ length (all_opportunities uk_2024 (resolve_months None)) = 109%nat.
Proof. split; vm_compute; reflexivity. Qed.

(** C2, amended: the code has no budget check and raises no error.  For
    every input with [num_leaves <= 0] detection runs as for any other
    budget, no opportunity fits, and [get_optimal_leave_days] returns the
    empty selection with 0 days off and 0 leaves used. *)
Theorem nonpositive_budget_selects_nothing (self : LeaveOptimizer)
    (num_leaves : Z) (preferred_months : option (list Z)) :
  num_leaves <= 0 ->
  get_optimal_leave_days self num_leaves preferred_months = ([], 0, 0).
Proof.
  intros Hn. unfold get_optimal_leave_days, optimal_plan, selector.
  rewrite select_loop_stuck; [reflexivity |].
  eapply Forall_impl; [| apply sorted_opportunities_shape].
  intros o Ho. pose proof (shape_cost o Ho). simpl. lia.
Qed.

Lemma nonpositive_budget_selects_nothing_witness :
  0 <= 0 /\ get_optimal_leave_days uk_2024 0 None = ([], 0, 0).
Proof.
  split; [lia |].
  apply (nonpositive_budget_selects_nothing uk_2024 0 None). lia.
Defined.

(** C3, as stated, fails.  For 2024 and a budget of 5 the empty list of
    months gives the empty selection, the twelve months give five leave
    days. *)
Lemma empty_months_differ_2024 :
  get_optimal_leave_days uk_2024 5 (Some [])
  <> get_optimal_leave_days uk_2024 5 (Some all_months).
Proof. vm_compute. discriminate. Qed.

(** C3, amended: [get_optimal_leave_days] substitutes the twelve months,
    before detection runs, only for [preferred_months = None]; called with
    the empty list it substitutes nothing, detection finds no opportunity
    and the result is the empty selection.  The substitution for an empty
    choice of months is made by the caller, [main] of [app.py], before the
    call. *)
Theorem empty_months_resolution (self : LeaveOptimizer) (num_leaves : Z) :
  get_optimal_leave_days self num_leaves None
  = get_optimal_leave_days self num_leaves (Some all_months)
  /\ all_opportunities self [] = []
  /\ get_optimal_leave_days self num_leaves (Some []) = ([], 0, 0)
  /\ App.main_call self num_leaves []
     = get_optimal_leave_days self num_leaves (Some all_months).
Proof.
  split; [reflexivity |]. split; [apply all_opportunities_no_months |].
  split; [| reflexivity].
  unfold get_optimal_leave_days, optimal_plan. simpl resolve_months.
    now rewrite all_opportunities_no_months.
Qed.

(** C4: for every year, holiday table and preferred months and every budget
    [n >= 1], the days off returned for the budget [n + 1] are at least
    those returned for [n]. *)
Theorem budget_monotone (self : LeaveOptimizer)
    (preferred_months : option (list Z)) (n : Z) :
  1 <= n ->
  snd (fst (get_optimal_leave_days self n preferred_months))
  <= snd (fst (get_optimal_leave_days self (n + 1) preferred_months)).
Proof.
  intros _. unfold get_optimal_leave_days, optimal_plan, selector. simpl.
  pose proof (sorted_opportunities_shape self (resolve_months preferred_months))
    as Hsh.
  apply select_loop_monotone.
  - apply sorted_by_cost; [assumption | apply sort_by_efficiency_sorted].
  - eapply Forall_impl; [| exact Hsh].
    intros o Ho. pose proof (shape_cost o Ho). pose proof (shape_days_off o Ho).
    simpl. lia.
Qed.

Lemma budget_monotone_witness :
  1 <= 1
  /\ snd (fst (get_optimal_leave_days uk_2024 1 None))
     <= snd (fst (get_optimal_leave_days uk_2024 (1 + 1) None)).
Proof.
  split; [lia |]. apply (budget_monotone uk_2024 None 1). lia.
Defined.

(** C5: for every budget [num_leaves >= 0] and every opportunity list, the
    leaves used by the selector are at most [num_leaves]; an opportunity
    that does not overlap but exceeds the remaining budget is skipped and
    the scan goes on, so that a later opportunity that fits is accepted. *)
Theorem selector_within_budget (num_leaves : Z) (opps : list opportunity) :
  0 <= num_leaves ->
  total_leaves_used (selector num_leaves opps) <= num_leaves
  /\ forall (st : plan) (big small : opportunity) (rest : list opportunity),
       has_date_overlap (leave_dates big) (used_date_ranges st) = false ->
       num_leaves < total_leaves_used st + leaves_needed big ->
       has_date_overlap (leave_dates small) (used_date_ranges st) = false ->
       total_leaves_used st + leaves_needed small <= num_leaves ->
       select_step num_leaves st big = st
       /\ select_loop num_leaves (big :: small :: rest) st
          = select_loop num_leaves rest (accept st small).
Proof.
  intros Hn. split.
  - unfold selector.
    apply (select_loop_invariant (fun st => total_leaves_used st <= num_leaves)).
    + intros st o _ _ _ Hfit. simpl. exact Hfit.
    + simpl. exact Hn.
  - intros st big small rest _ Hbig Hov Hfit.
    pose proof (select_step_over_budget num_leaves st big Hbig) as Hskip.
    split; [exact Hskip |].
    rewrite !select_loop_cons, Hskip.
    now rewrite select_step_accept.
Qed.

Lemma selector_within_budget_witness :
  let opps := all_opportunities uk_2024 all_months in
  let big := christmas_bridge_2024 in
  let small := friday_anchored (ymd2ord 2024 1 5) in
  0 <= 1
  /\ total_leaves_used (selector 1 opps) <= 1
  /\ select_loop 1 [big; small] empty_plan = accept empty_plan small.
Proof.
  intros opps big small.
  assert (Hn : 0 <= 1) by lia.
  destruct (selector_within_budget 1 opps Hn) as [Hused Hskip].
  split; [exact Hn |]. split; [exact Hused |].
  apply (Hskip empty_plan big small []); [reflexivity | | reflexivity |];
    simpl; lia.
Defined.

(** C6: for every input, the leave dates of the opportunities accepted by
    the selector are pairwise disjoint and the returned [selected_leaves],
    their concatenation, holds no date twice; a candidate sharing a date
    with an accepted opportunity leaves the plan unchanged. *)
Theorem selected_ranges_disjoint (self : LeaveOptimizer) (num_leaves : Z)
    (preferred_months : option (list Z)) :
  let st := optimal_plan self num_leaves preferred_months in
  ForallOrdPairs disjoint (used_date_ranges st)
  /\ fst (fst (get_optimal_leave_days self num_leaves preferred_months))
     = concat (used_date_ranges st)
  /\ NoDup (fst (fst (get_optimal_leave_days self num_leaves preferred_months)))
  /\ forall (before : plan) (o : opportunity) (d : date),
       In d (leave_dates o) -> In d (concat (used_date_ranges before)) ->
       select_step num_leaves before o = before.
Proof.
  intros st.
  destruct (optimal_plan_inv self num_leaves preferred_months) as [Hsel Hnd].
  fold st in Hsel, Hnd. simpl.
  split; [| split; [exact Hsel | split; [exact Hnd |]]].
  - apply NoDup_concat_disjoint. now rewrite <- Hsel.
  - intros before o d Hd Hin. apply select_step_overlap.
    apply has_date_overlap_true. eauto.
Qed.

(** C7: every opportunity emitted by bridge detection or by long-weekend
    detection has [leaves_needed = len(leave_dates)], an efficiency equal to
    the quotient of [total_days_off] by [leaves_needed], and an efficiency
    of at least 1. *)
Theorem emitted_opportunity_invariant (self : LeaveOptimizer)
    (preferred_months : list Z) :
  let well_formed (o : opportunity) :=
    leaves_needed o = Z.of_nat (length (leave_dates o))
    /\ (efficiency o
        == inject_Z (total_days_off o) / inject_Z (leaves_needed o))%Q
    /\ (1 <= efficiency o)%Q in
  Forall well_formed (find_bridge_opportunities self preferred_months)
  /\ Forall well_formed (find_long_weekend_opportunities self preferred_months).
Proof.
  intros well_formed.
  assert (Hwf : forall o, emitted_shape o -> well_formed o).
  { intros o Ho. split; [apply (shape_needed o Ho) |].
    now apply emitted_efficiency. }
  split.
  - eapply Forall_impl; [exact Hwf | apply find_bridge_shape].
  - eapply Forall_impl; [exact Hwf | apply find_long_weekend_shape].
Qed.

(** C8, as stated, fails.  The year 2000, a leap year that began on a
    Saturday, has 106 weekend days. *)
Lemma weekends_of_2000 :
  length (get_weekends 2000) = 106%nat
  /\ ~ (length (get_weekends 2000) = 104%nat
        \/ length (get_weekends 2000) = 105%nat).
Proof.
  assert (H : length (get_weekends 2000) = 106%nat) by (vm_compute; reflexivity).
  split; [exact H |]. rewrite H. intros [E | E]; discriminate.
Qed.

(** C8, amended: for every year, [get_weekends] returns 104, 105 or 106
    dates: 104 for the 52 full weeks, one more when January 1 is a Saturday
    or a Sunday, and in a leap year one more when January 2 is. *)
Theorem weekends_per_year (y : Z) :
  let n := length (get_weekends y) in
  n = (104 + bool_to_nat (is_weekend (ymd2ord y 1 1)%Z)
       + bool_to_nat (is_leap y && is_weekend (ymd2ord y 1 1 + 1)%Z))%nat
  /\ (n = 104 \/ n = 105 \/ n = 106)%nat.
Proof.
  intros n. pose proof (get_weekends_length y) as H. fold n in H.
  split; [exact H |].
  destruct (is_weekend (ymd2ord y 1 1));
    destruct (is_leap y && is_weekend (ymd2ord y 1 1 + 1));
    simpl in H; lia.
Qed.

(** C9: for every year, holiday table, budget and preferred months, every
    leave date returned by [get_optimal_leave_days] is a Monday, Tuesday,
    Wednesday, Thursday or Friday. *)
Theorem selected_are_working_days (self : LeaveOptimizer) (num_leaves : Z)
    (preferred_months : option (list Z)) :
  Forall (fun d => 0 <= weekday d <= 4)
    (fst (fst (get_optimal_leave_days self num_leaves preferred_months))).
Proof.
  unfold get_optimal_leave_days, optimal_plan, selector. simpl.
  pose proof (sorted_opportunities_shape self (resolve_months preferred_months))
    as Hsh.
  rewrite Forall_forall in Hsh.
  apply (select_loop_invariant
           (fun st => Forall (fun d => 0 <= weekday d <= 4) (selected_leaves st))).
  - intros st o Hin Hst _ _. simpl. apply Forall_app. split; [assumption |].
    eapply Forall_impl; [| apply (shape_working_days o (Hsh o Hin))].
    intros d Hd. now apply is_weekend_false.
  - constructor.
Qed.

(** C10: the bridge walks are not bounded to the requested year.  A holiday
    on Wednesday, January 1, 2025 makes bridge detection emit, and
    [get_optimal_leave_days] return, December 30 and 31 of 2024; a holiday
    on Monday, December 28, 2020 makes them emit and return January 1,
    2021.  Long-weekend detection only emits dates between January 1 and
    December 31 of the requested year. *)
Theorem bridges_leave_the_year :
  (exists o,
      In o (find_bridge_opportunities new_year_2025 [1])
      /\ leave_dates o = [ymd2ord 2024 12 31; ymd2ord 2024 12 30])
  /\ In (ymd2ord 2024 12 31)
       (fst (fst (get_optimal_leave_days new_year_2025 10 (Some [1]))))
  /\ ~ within_year (year new_year_2025) (ymd2ord 2024 12 31)
  /\ year_of (ymd2ord 2024 12 31) = year new_year_2025 - 1
  /\ (exists o,
         In o (find_bridge_opportunities boxing_day_2020 [12])
         /\ In (ymd2ord 2021 1 1) (leave_dates o))
  /\ In (ymd2ord 2021 1 1)
       (fst (fst (get_optimal_leave_days boxing_day_2020 11 (Some [12]))))
  /\ ~ within_year (year boxing_day_2020) (ymd2ord 2021 1 1)
  /\ year_of (ymd2ord 2021 1 1) = year boxing_day_2020 + 1
  /\ forall (self : LeaveOptimizer) (preferred_months : list Z),
       Forall (fun o => Forall (within_year (year self)) (leave_dates o))
         (find_long_weekend_opportunities self preferred_months).
Proof.
  split.
  { eexists. split; [vm_compute; left; reflexivity | reflexivity]. }
  split.
  { vm_compute. tauto. }
  split.
  { unfold within_year. vm_compute. intros [H _]. now apply H. }
  split.
  { reflexivity. }
  split.
  { eexists. split; [vm_compute; left; reflexivity |]. vm_compute. tauto. }
  split.
  { vm_compute. tauto. }
  split.
  { unfold within_year. vm_compute. intros [_ H]. now apply H. }
  split.
  { reflexivity. }
  intros self preferred_months.
  apply long_weekend_loop_Forall; [| | lia | constructor];
    intros cur note Hcur _ Hin; simpl;
    (constructor; [unfold within_year; lia | constructor]).
Qed.

(** ** Further properties: the calendar year *)

Lemma year_of_within (y : Z) (d : date) :
  within_year y d -> year_of d = y.
Proof.
  unfold within_year. rewrite year_length.
  unfold ymd2ord, days_before_month, year_of, ord2ymd.
  change (tbl DAYS_BEFORE_MONTH 1) with 0. change (2 <? 1) with false.
  simpl andb. cbv iota.
  unfold days_before_year, is_leap, DI400Y, DI100Y, DI4Y. cbv zeta.
  intros H. set (n := d - 1) in *.
  destruct ((n mod 146097 mod 36524 mod 1461 / 365 =? 4)
            || (n mod 146097 / 36524 =? 4)) eqn:E.
  - simpl. apply orb_true_iff in E.
    destruct (y mod 4 =? 0) eqn:E4; destruct (y mod 100 =? 0) eqn:E100;
      destruct (y mod 400 =? 0) eqn:E400; simpl in H;
      rewrite ?Z.eqb_eq, ?Z.eqb_neq in *; Z.div_mod_to_equations; lia.
  - apply orb_false_iff in E. destruct E as [E1 E2].
    assert (Hgoal : n / 146097 * 400 + 1 + n mod 146097 / 36524 * 100
                    + n mod 146097 mod 36524 / 1461 * 4
                    + n mod 146097 mod 36524 mod 1461 / 365 = y).
    { destruct (y mod 4 =? 0) eqn:E4; destruct (y mod 100 =? 0) eqn:E100;
        destruct (y mod 400 =? 0) eqn:E400; simpl in H;
        rewrite ?Z.eqb_eq, ?Z.eqb_neq in *; Z.div_mod_to_equations; lia. }
    destruct (_ <? _); simpl; exact Hgoal.
Qed.

Lemma days_before_year_succ (y : Z) :
  days_before_year (y + 1)
  = days_before_year y + 365 + (if is_leap y then 1 else 0).
Proof.
  unfold days_before_year, is_leap. cbv zeta.
  replace (y + 1 - 1) with y by lia.
  destruct (y mod 4 =? 0) eqn:E4; destruct (y mod 100 =? 0) eqn:E100;
    destruct (y mod 400 =? 0) eqn:E400; simpl;
    rewrite ?Z.eqb_eq, ?Z.eqb_neq in *; Z.div_mod_to_equations; lia.
Qed.

Lemma new_year_ordinal (y : Z) : ymd2ord y 1 1 = days_before_year y + 1.
Proof.
  unfold ymd2ord, days_before_month.
  change (tbl DAYS_BEFORE_MONTH 1) with 0. change (2 <? 1) with false.
  simpl andb. cbv iota. lia.
Qed.

(** The years tile the ordinals: the day after December 31 is January 1. *)
Lemma next_new_year (y : Z) : ymd2ord (y + 1) 1 1 = ymd2ord y 12 31 + 1.
Proof.
  rewrite year_length, !new_year_ordinal, days_before_year_succ. lia.
Qed.

Lemma new_year_increasing (y : Z) (k : nat) :
  ymd2ord y 1 1 <= ymd2ord (y + Z.of_nat k) 1 1.
Proof.
  induction k as [|k IH].
  - replace (y + Z.of_nat 0) with y by lia. lia.
  - replace (y + Z.of_nat (S k)) with (y + Z.of_nat k + 1) by lia.
    rewrite next_new_year. pose proof (year_length (y + Z.of_nat k)).
    destruct (is_leap (y + Z.of_nat k)); lia.
Qed.

Lemma new_year_monotone (y y' : Z) :
  y <= y' -> ymd2ord y 1 1 <= ymd2ord y' 1 1.
Proof.
  intros H. replace y' with (y + Z.of_nat (Z.to_nat (y' - y))) by lia.
  apply new_year_increasing.
Qed.

(** Only the dates of a year are within it. *)
Lemma within_year_unique (y y' : Z) (d : date) :
  within_year y d -> within_year y' d -> y = y'.
Proof.
  intros H H'. rewrite <- (year_of_within y d H). now apply year_of_within.
Qed.

Lemma within_year_of (d : date) : within_year (year_of d) d.
Proof.
  unfold within_year. rewrite year_length, new_year_ordinal.
  unfold year_of, ord2ymd.
  unfold days_before_year, is_leap, DI400Y, DI100Y, DI4Y. cbv zeta.
  set (n := d - 1) in *.
  assert (Hd : d = n + 1) by (unfold n; lia). clearbody n. subst d.
  destruct ((n mod 146097 mod 36524 mod 1461 / 365 =? 4)
            || (n mod 146097 / 36524 =? 4)) eqn:E.
  - simpl fst.
    set (y := n / 146097 * 400 + 1 + n mod 146097 / 36524 * 100 +
      n mod 146097 mod 36524 / 1461 * 4 + n mod 146097 mod 36524 mod 1461 / 365 - 1).
    apply orb_true_iff in E.
    destruct (y mod 4 =? 0) eqn:E4; destruct (y mod 100 =? 0) eqn:E100;
      destruct (y mod 400 =? 0) eqn:E400; simpl; unfold y in *; clear y;
      rewrite ?Z.eqb_eq, ?Z.eqb_neq in *; Z.div_mod_to_equations; lia.
  - apply orb_false_iff in E. destruct E as [E1 E2].
    match goal with |- context [fst (fst (if ?c then _ else _))] => destruct c end; simpl fst;
    set (y := n / 146097 * 400 + 1 + n mod 146097 / 36524 * 100 +
      n mod 146097 mod 36524 / 1461 * 4 + n mod 146097 mod 36524 mod 1461 / 365);
    destruct (y mod 4 =? 0) eqn:E4; destruct (y mod 100 =? 0) eqn:E100;
      destruct (y mod 400 =? 0) eqn:E400; simpl; unfold y in *; clear y;
      rewrite ?Z.eqb_eq, ?Z.eqb_neq in *; Z.div_mod_to_equations; lia.
Qed.

Lemma within_year_iff (y : Z) (d : date) : within_year y d <-> year_of d = y.
Proof.
  split; [apply year_of_within |]. intros <-. apply within_year_of.
Qed.

(** ** Further properties: [get_weekends] *)

Lemma weekends_loop_In (fuel : nat) (d : date) :
  forall (current_date end_date : date) (acc : list date),
    end_date - current_date + 1 <= Z.of_nat fuel ->
    (In d (weekends_loop fuel current_date end_date acc)
     <-> In d acc
         \/ (current_date <= d <= end_date /\ is_weekend d = true)).
Proof.
  induction fuel as [|fuel IH]; intros cur e acc Hfuel; simpl.
  - split; [tauto | intros [H | [H _]]; [assumption | lia]].
  - destruct (cur <=? e) eqn:Hc.
    + apply Z.leb_le in Hc. rewrite IH by lia.
      destruct (is_weekend cur) eqn:Hw.
      * rewrite in_app_iff. simpl. split.
        -- intros [[H | [<- | []]] | [H Hd]]; auto.
           ++ right. split; [lia | assumption].
           ++ right. split; [lia | assumption].
        -- intros [H | [H Hd]]; auto.
           destruct (Z.eq_dec cur d) as [-> | Hne]; auto.
           right. split; [lia | assumption].
      * split.
        -- intros [H | [H Hd]]; auto. right. split; [lia | assumption].
        -- intros [H | [H Hd]]; auto.
           destruct (Z.eq_dec cur d) as [-> | Hne]; [congruence |].
           right. split; [lia | assumption].
    + apply Z.leb_gt in Hc. split; [tauto | intros [H | [H _]]; [assumption | lia]].
Qed.

Lemma sorted_snoc (l : list Z) (x : Z) :
  StronglySorted Z.lt l -> Forall (fun a => a < x) l ->
  StronglySorted Z.lt (l ++ [x]).
Proof.
  induction l as [|a l IH]; intros Hs Hx; simpl.
  - constructor; constructor.
  - inversion Hs as [|? ? Hl Ha]; subst. inversion Hx as [|? ? Hax Hlx]; subst.
    constructor; [now apply IH |].
    apply Forall_app. split; [assumption | now constructor].
Qed.

Lemma weekends_loop_sorted (fuel : nat) :
  forall (current_date end_date : date) (acc : list date),
    StronglySorted Z.lt acc -> Forall (fun a => a < current_date) acc ->
    StronglySorted Z.lt (weekends_loop fuel current_date end_date acc).
Proof.
  induction fuel as [|fuel IH]; intros cur e acc Hs Hlt; simpl; [assumption |].
  destruct (cur <=? e); [| assumption].
  apply IH.
  - destruct (is_weekend cur); [now apply sorted_snoc | assumption].
  - assert (Hacc : Forall (fun a => a < cur + 1) acc)
      by (eapply Forall_impl; [| exact Hlt]; simpl; intros; lia).
    destruct (is_weekend cur); [| assumption].
    apply Forall_app. split; [assumption |]. constructor; [lia | constructor].
Qed.

(** X1: [get_weekends] returns exactly the Saturdays and Sundays of the
    year: a date is in the list if and only if its year is the requested
    one and its weekday is 5 or 6. *)
Theorem get_weekends_exact (y : Z) (d : date) :
  In d (get_weekends y)
  <-> year_of d = y /\ (weekday d = 5 \/ weekday d = 6).
Proof.
  unfold get_weekends.
  rewrite weekends_loop_In by (unfold days_to_scan; lia).
  rewrite <- within_year_iff, <- is_weekend_true. unfold within_year. simpl.
  tauto.
Qed.

(** X2: [get_weekends] lists the dates in chronological order, each once. *)
Theorem get_weekends_chronological (y : Z) :
  StronglySorted Z.lt (get_weekends y) /\ NoDup (get_weekends y).
Proof.
  assert (Hs : StronglySorted Z.lt (get_weekends y))
    by (apply weekends_loop_sorted; constructor).
  split; [exact Hs |].
  induction Hs as [|a l Hl IH Ha]; constructor; [| exact IH].
  intros Hin. rewrite Forall_forall in Ha. specialize (Ha a Hin). lia.
Qed.

(** X3: the weekend count [main] shows, which keeps the weekends whose year
    is the selected one, drops nothing: it is the length of
    [optimizer.weekends], between 104 and 106. *)
Theorem total_weekends_counts_all (y : Z) (country : string)
    (table : list (date * string)) :
  let optimizer := init y country table in
  View.total_weekends optimizer y = length (weekends optimizer)
  /\ (104 <= View.total_weekends optimizer y <= 106)%nat.
Proof.
  intros optimizer.
  assert (Hall : View.total_weekends optimizer y = length (weekends optimizer)).
  { unfold View.total_weekends. f_equal.
    apply forallb_filter_id. apply forallb_forall.
    intros d Hd. apply Z.eqb_eq. simpl in Hd.
    now apply get_weekends_exact in Hd. }
  split; [exact Hall |]. rewrite Hall. simpl weekends.
  rewrite get_weekends_length.
  destruct (is_weekend (ymd2ord y 1 1));
    destruct (is_leap y && is_weekend (ymd2ord y 1 1 + 1)); simpl; lia.
Qed.

(** ** Further properties: bridge detection *)

Lemma bridge_walk_run (k : nat) :
  forall (fuel : nat) (step : Z) (cur : date) (days : list date),
    (k < fuel)%nat ->
    (forall i, (i < k)%nat -> is_weekend (cur + Z.of_nat i * step) = false) ->
    (length days + k <= 4)%nat ->
    is_weekend (cur + Z.of_nat k * step) = true
    \/ (length days + k = 4)%nat ->
    bridge_walk fuel step cur days
    = (cur + Z.of_nat k * step, days ++ days_from step cur k).
Proof.
  induction k as [|k IH]; intros fuel step cur days Hfuel Hwork Hlen Hstop;
    (destruct fuel as [|fuel]; [lia |]); simpl bridge_walk.
  - replace (cur + Z.of_nat 0 * step) with cur in * by lia.
    simpl. rewrite app_nil_r.
    destruct Hstop as [Hw | Hfull].
    + now rewrite Hw.
    + replace (Z.of_nat (length days) <? 4) with false
        by (symmetry; apply Z.ltb_ge; lia).
      now rewrite andb_false_r.
  - pose proof (Hwork 0%nat ltac:(lia)) as H0.
    replace (cur + Z.of_nat 0 * step) with cur in H0 by lia.
    rewrite H0.
    replace (Z.of_nat (length days) <? 4) with true
      by (symmetry; apply Z.ltb_lt; lia).
    simpl andb. cbv iota.
    rewrite IH.
    + rewrite <- app_assoc. simpl days_from. simpl app.
      replace (cur + step + Z.of_nat k * step)
        with (cur + Z.of_nat (S k) * step)
        by (rewrite Nat2Z.inj_succ; ring).
      reflexivity.
    + lia.
    + intros i Hi. specialize (Hwork (S i) ltac:(lia)).
      replace (cur + step + Z.of_nat i * step)
        with (cur + Z.of_nat (S i) * step)
        by (rewrite Nat2Z.inj_succ; ring).
      exact Hwork.
    + rewrite length_app. simpl. lia.
    + rewrite length_app. simpl.
      replace (cur + step + Z.of_nat k * step)
        with (cur + Z.of_nat (S k) * step)
        by (rewrite Nat2Z.inj_succ; ring).
      destruct Hstop; [now left | right; lia].
Qed.

(** Settles the outcome of [analyze_bridge] for a holiday whose weekday is
    known: [k] is the number of working days the walk collects. *)
Ltac bridge_case k :=
  unfold analyze_bridge;
  rewrite (bridge_walk_run k);
  [ | lia
    | let i := fresh "i" in let Hi := fresh "Hi" in
      intros i Hi; do 5 (try destruct i as [|i]); try lia; weekday_lia
    | simpl; lia
    | first [ left; weekday_lia | right; simpl; lia ] ].

Lemma analyze_bridge_before_eq (self : LeaveOptimizer) (h : date) :
  analyze_bridge_before self h
  = if (1 <=? weekday h) && (weekday h <=? 4)
    then Some (bridge (-1) h (weekday h)
                 (BridgeBefore (lookup_name (holidays self) h)))
    else None.
Proof.
  pose proof (weekday_range h) as Hr. unfold analyze_bridge_before.
  assert (Hcase : weekday h = 0 \/ weekday h = 1 \/ weekday h = 2
                  \/ weekday h = 3 \/ weekday h = 4 \/ weekday h = 5
                  \/ weekday h = 6) by lia.
  destruct Hcase as [Hw | [Hw | [Hw | [Hw | [Hw | [Hw | Hw]]]]]]; rewrite Hw;
    simpl andb; cbv iota.
  - bridge_case 0%nat. simpl. now rewrite andb_false_r.
  - bridge_case 1%nat.
    rewrite weekend_walk_two by (auto; weekday_lia).
    replace (is_weekend (h + -1 + Z.of_nat 1 * -1)) with true
      by (symmetry; weekday_lia).
    reflexivity.
  - bridge_case 2%nat.
    rewrite weekend_walk_two by (auto; weekday_lia).
    replace (is_weekend (h + -1 + Z.of_nat 2 * -1)) with true
      by (symmetry; weekday_lia).
    reflexivity.
  - bridge_case 3%nat.
    rewrite weekend_walk_two by (auto; weekday_lia).
    replace (is_weekend (h + -1 + Z.of_nat 3 * -1)) with true
      by (symmetry; weekday_lia).
    reflexivity.
  - bridge_case 4%nat.
    rewrite weekend_walk_two by (auto; weekday_lia).
    replace (is_weekend (h + -1 + Z.of_nat 4 * -1)) with true
      by (symmetry; weekday_lia).
    reflexivity.
  - bridge_case 4%nat.
    replace (is_weekend (h + -1 + Z.of_nat 4 * -1)) with false
      by (symmetry; weekday_lia).
    reflexivity.
  - bridge_case 0%nat. simpl. now rewrite andb_false_r.
Qed.

Lemma analyze_bridge_after_eq (self : LeaveOptimizer) (h : date) :
  analyze_bridge_after self h
  = if weekday h <=? 3
    then Some (bridge 1 h (4 - weekday h)
                 (BridgeAfter (lookup_name (holidays self) h)))
    else None.
Proof.
  pose proof (weekday_range h) as Hr. unfold analyze_bridge_after.
  assert (Hcase : weekday h = 0 \/ weekday h = 1 \/ weekday h = 2
                  \/ weekday h = 3 \/ weekday h = 4 \/ weekday h = 5
                  \/ weekday h = 6) by lia.
  destruct Hcase as [Hw | [Hw | [Hw | [Hw | [Hw | [Hw | Hw]]]]]]; rewrite Hw;
    simpl Z.leb; cbv iota.
  - bridge_case 4%nat.
    rewrite weekend_walk_two by (auto; weekday_lia).
    replace (is_weekend (h + 1 + Z.of_nat 4 * 1)) with true
      by (symmetry; weekday_lia).
    reflexivity.
  - bridge_case 3%nat.
    rewrite weekend_walk_two by (auto; weekday_lia).
    replace (is_weekend (h + 1 + Z.of_nat 3 * 1)) with true
      by (symmetry; weekday_lia).
    reflexivity.
  - bridge_case 2%nat.
    rewrite weekend_walk_two by (auto; weekday_lia).
    replace (is_weekend (h + 1 + Z.of_nat 2 * 1)) with true
      by (symmetry; weekday_lia).
    reflexivity.
  - bridge_case 1%nat.
    rewrite weekend_walk_two by (auto; weekday_lia).
    replace (is_weekend (h + 1 + Z.of_nat 1 * 1)) with true
      by (symmetry; weekday_lia).
    reflexivity.
  - bridge_case 0%nat. simpl. now rewrite andb_false_r.
  - bridge_case 0%nat. simpl. now rewrite andb_false_r.
  - bridge_case 4%nat.
    replace (is_weekend (h + 1 + Z.of_nat 4 * 1)) with false
      by (symmetry; weekday_lia).
    reflexivity.
Qed.

Lemma days_from_In (step : Z) (k : nat) :
  forall (c d : date),
    In d (days_from step c k)
    <-> exists i, (i < k)%nat /\ d = c + Z.of_nat i * step.
Proof.
  induction k as [|k IH]; intros c d; simpl.
  - split; [intros [] | intros [i [Hi _]]; lia].
  - rewrite IH. split.
    + intros [<- | [i [Hi ->]]].
      * exists 0%nat. split; [lia | simpl; lia].
      * exists (S i). split; [lia |]. rewrite Nat2Z.inj_succ. lia.
    + intros [[|i] [Hi ->]].
      * left. simpl. lia.
      * right. exists i. split; [lia |]. rewrite Nat2Z.inj_succ. lia.
Qed.

Lemma append_if_app (acc : list opportunity) (a b : option opportunity) :
  append_if (append_if acc a) b = acc ++ append_if (append_if [] a) b.
Proof.
  destruct a, b; simpl; rewrite <- ?app_assoc, ?app_nil_r; reflexivity.
Qed.

Lemma bridge_loop_flat_map (self : LeaveOptimizer) (preferred_months : list Z) :
  forall (pending : list date) (acc : list opportunity),
    bridge_loop self preferred_months pending acc
    = acc ++ flat_map (bridges_of self)
               (filter (fun h => mem (month h) preferred_months) pending).
Proof.
  induction pending as [|h rest IH]; intros acc; simpl.
  - now rewrite app_nil_r.
  - destruct (mem (month h) preferred_months); simpl.
    + rewrite IH, append_if_app, <- app_assoc. reflexivity.
    + apply IH.
Qed.

Lemma find_bridge_flat_map (self : LeaveOptimizer) (preferred_months : list Z) :
  find_bridge_opportunities self preferred_months
  = flat_map (bridges_of self) (preferred_holidays self preferred_months).
Proof.
  unfold find_bridge_opportunities. now rewrite bridge_loop_flat_map.
Qed.

Lemma bridges_of_length (self : LeaveOptimizer) (h : date) :
  length (bridges_of self h) = bridges_of_weekday (weekday h).
Proof.
  pose proof (weekday_range h) as Hr.
  unfold bridges_of, bridges_of_weekday.
  rewrite analyze_bridge_before_eq, analyze_bridge_after_eq.
  assert (Hcase : weekday h = 0 \/ weekday h = 1 \/ weekday h = 2
                  \/ weekday h = 3 \/ weekday h = 4 \/ weekday h = 5
                  \/ weekday h = 6) by lia.
  destruct Hcase as [Hw | [Hw | [Hw | [Hw | [Hw | [Hw | Hw]]]]]]; rewrite Hw;
    reflexivity.
Qed.

Lemma bridges_of_near (self : LeaveOptimizer) (h : date) (o : opportunity) :
  In o (bridges_of self h) ->
  Forall (fun d => h - 4 <= d <= h + 4 /\ d <> h) (leave_dates o).
Proof.
  pose proof (weekday_range h) as Hr.
  unfold bridges_of.
  rewrite analyze_bridge_before_eq, analyze_bridge_after_eq.
  intros Hin. apply Forall_forall. intros d Hd.
  destruct ((1 <=? weekday h) && (weekday h <=? 4)) eqn:Eb;
    destruct (weekday h <=? 3) eqn:Ea; cbn [In append_if app] in Hin;
    repeat match goal with
    | H : _ \/ _ |- _ => destruct H
    | H : False |- _ => destruct H
    end; subst o; cbn [leave_dates bridge] in Hd; apply days_from_In in Hd;
    destruct Hd as [i [Hi ->]];
    rewrite ?andb_true_iff, ?Z.leb_le in *; lia.
Qed.

(** ** Further properties: long-weekend detection *)

Lemma long_weekend_loop_flat_map (self : LeaveOptimizer)
    (preferred_months : list Z) (start_date end_date : date) (fuel : nat) :
  forall (current_date : date) (acc : list opportunity),
    end_date - current_date + 1 <= Z.of_nat fuel ->
    long_weekend_loop self preferred_months start_date end_date fuel
      current_date acc
    = acc ++ flat_map
               (long_weekend_at self preferred_months start_date end_date)
               (days_from 1 current_date
                  (Z.to_nat (end_date - current_date + 1))).
Proof.
  induction fuel as [|fuel IH]; intros cur acc Hfuel; simpl.
  - replace (Z.to_nat (end_date - cur + 1)) with 0%nat by lia.
    simpl. now rewrite app_nil_r.
  - destruct (cur <=? end_date) eqn:Hc.
    + apply Z.leb_le in Hc.
      replace (Z.to_nat (end_date - cur + 1))
        with (S (Z.to_nat (end_date - (cur + 1) + 1))) by lia.
      simpl. unfold long_weekend_at at 1.
      destruct (negb (mem (month cur) preferred_months)).
      * rewrite IH by lia. reflexivity.
      * rewrite IH by lia.
        destruct (weekday cur =? 4).
        -- destruct (negb (is_holiday self (cur + 3)) && (cur + 3 <=? end_date)
                     && mem (month (cur + 3)) preferred_months);
             [now rewrite <- app_assoc | reflexivity].
        -- destruct (weekday cur =? 0); [| reflexivity].
           destruct (negb (is_holiday self (cur - 3))
                     && (start_date <=? cur - 3)
                     && mem (month (cur - 3)) preferred_months);
             [now rewrite <- app_assoc | reflexivity].
    + apply Z.leb_gt in Hc.
      replace (Z.to_nat (end_date - cur + 1)) with 0%nat by lia.
      simpl. now rewrite app_nil_r.
Qed.

Lemma find_long_weekend_flat_map (self : LeaveOptimizer)
    (preferred_months : list Z) :
  let start_date := ymd2ord (year self) 1 1 in
  let end_date := ymd2ord (year self) 12 31 in
  find_long_weekend_opportunities self preferred_months
  = flat_map (long_weekend_at self preferred_months start_date end_date)
      (days_from 1 start_date (Z.to_nat (end_date - start_date + 1))).
Proof.
  intros start_date end_date. unfold find_long_weekend_opportunities.
  fold start_date end_date.
  rewrite long_weekend_loop_flat_map by (unfold days_to_scan; lia).
  reflexivity.
Qed.

Lemma days_of_year_In (start_date end_date d : date) :
  In d (days_from 1 start_date (Z.to_nat (end_date - start_date + 1)))
  <-> start_date <= d <= end_date.
Proof.
  rewrite days_from_In. split.
  - intros [i [Hi ->]]. lia.
  - intros H. exists (Z.to_nat (d - start_date)). split; lia.
Qed.

Lemma long_weekend_at_In (self : LeaveOptimizer) (preferred_months : list Z)
    (start_date end_date c : date) (o : opportunity) :
  In o (long_weekend_at self preferred_months start_date end_date c)
  <-> mem (month c) preferred_months = true
      /\ ((weekday c = 4 /\ is_holiday self (c + 3) = false
           /\ c + 3 <= end_date /\ mem (month (c + 3)) preferred_months = true
           /\ o = long_weekend (c + 3) (LongWeekendStarting c))
          \/ (weekday c = 0 /\ is_holiday self (c - 3) = false
              /\ start_date <= c - 3
              /\ mem (month (c - 3)) preferred_months = true
              /\ o = long_weekend (c - 3) (LongWeekendEnding c))).
Proof.
  unfold long_weekend_at.
  destruct (mem (month c) preferred_months); simpl negb; cbv iota;
    [| simpl; intuition discriminate].
  destruct (weekday c =? 4) eqn:E4.
  - apply Z.eqb_eq in E4.
    destruct (is_holiday self (c + 3)); simpl;
      [intuition (try discriminate; try lia) |].
    destruct (c + 3 <=? end_date) eqn:El; simpl;
      [apply Z.leb_le in El | apply Z.leb_gt in El;
                              intuition (try discriminate; try lia)].
    destruct (mem (month (c + 3)) preferred_months); simpl;
      intuition (try discriminate; try lia; auto).
  - apply Z.eqb_neq in E4.
    destruct (weekday c =? 0) eqn:E0.
    + apply Z.eqb_eq in E0.
      destruct (is_holiday self (c - 3)); simpl;
        [intuition (try discriminate; try lia) |].
      destruct (start_date <=? c - 3) eqn:El; simpl;
        [apply Z.leb_le in El | apply Z.leb_gt in El;
                                intuition (try discriminate; try lia)].
      destruct (mem (month (c - 3)) preferred_months); simpl;
        intuition (try discriminate; try lia; auto).
    + apply Z.eqb_neq in E0. simpl. intuition (try lia).
Qed.

(** X4: what bridge detection makes of a holiday depends on its weekday
    alone.  Before a holiday on a Tuesday, Wednesday, Thursday or Friday the
    leave days are the 1, 2, 3 or 4 days back to the Monday, for that many
    plus 3 days off; before a holiday on a Monday or at a weekend there is no
    bridge.  After a holiday on a Monday, Tuesday, Wednesday or Thursday the
    leave days are the 4, 3, 2 or 1 days up to the Friday; after a holiday
    on a Friday or at a weekend there is none.  Neither walk looks at
    holidays or preferred months. *)
Theorem analyze_bridge_by_weekday (self : LeaveOptimizer) (h : date) :
  analyze_bridge_before self h
  = (if (1 <=? weekday h) && (weekday h <=? 4)
     then Some (bridge (-1) h (weekday h)
                  (BridgeBefore (lookup_name (holidays self) h)))
     else None)
  /\ analyze_bridge_after self h
     = (if weekday h <=? 3
        then Some (bridge 1 h (4 - weekday h)
                     (BridgeAfter (lookup_name (holidays self) h)))
        else None).
Proof.
  split; [apply analyze_bridge_before_eq | apply analyze_bridge_after_eq].
Qed.

Lemma flat_map_length_sum (A B : Type) (f : A -> list B) (l : list A) :
  length (flat_map f l) = list_sum (map (fun a => length (f a)) l).
Proof.
  induction l as [|a l IH]; simpl; [reflexivity |].
  now rewrite length_app, IH.
Qed.

(** X5: bridge detection emits, in the order of the holiday table and for
    the holidays of the preferred months only, two opportunities for a
    holiday from Tuesday to Thursday, one for a Monday or a Friday and none
    for a Saturday or a Sunday; so at most two per holiday, and none when no
    holiday falls in a preferred month. *)
Theorem find_bridge_count (self : LeaveOptimizer) (preferred_months : list Z) :
  let found := find_bridge_opportunities self preferred_months in
  length found
  = list_sum (map (fun h => bridges_of_weekday (weekday h))
                (preferred_holidays self preferred_months))
  /\ (length found <= 2 * length (holidays self))%nat
  /\ (preferred_holidays self preferred_months = [] -> found = []).
Proof.
  intros found. unfold found. rewrite find_bridge_flat_map.
  split; [| split].
  - rewrite flat_map_length_sum. f_equal. apply map_ext.
    intros h. apply bridges_of_length.
  - rewrite flat_map_length_sum.
    unfold preferred_holidays, holiday_dates.
    rewrite <- (length_map fst (holidays self)).
    induction (map fst (holidays self)) as [|h l IH]; simpl; [lia |].
    destruct (mem (month h) preferred_months); simpl; [| lia].
    rewrite bridges_of_length. unfold bridges_of_weekday.
    destruct ((1 <=? weekday h) && (weekday h <=? 3));
      [| destruct ((weekday h =? 0) || (weekday h =? 4))]; lia.
  - intros ->. reflexivity.
Qed.

(** X6: long-weekend detection emits exactly this.  For a Friday and the
    Monday after it that both lie in the year and in preferred months, the
    opportunity to take the Monday is emitted unless the Monday is a
    holiday, and the opportunity to take the Friday unless the Friday is a
    holiday; nothing else is emitted. *)
Theorem find_long_weekend_exact (self : LeaveOptimizer)
    (preferred_months : list Z) (o : opportunity) :
  In o (find_long_weekend_opportunities self preferred_months)
  <-> exists friday,
        weekday friday = 4
        /\ within_year (year self) friday
        /\ within_year (year self) (friday + 3)
        /\ mem (month friday) preferred_months = true
        /\ mem (month (friday + 3)) preferred_months = true
        /\ ((is_holiday self (friday + 3) = false
             /\ o = friday_anchored friday)
            \/ (is_holiday self friday = false
                /\ o = monday_anchored friday)).
Proof.
  rewrite find_long_weekend_flat_map, in_flat_map.
  unfold within_year, friday_anchored, monday_anchored.
  set (s := ymd2ord (year self) 1 1). set (e := ymd2ord (year self) 12 31).
  split.
  - intros [c [Hc Ho]]. apply days_of_year_In in Hc.
    apply long_weekend_at_In in Ho.
    destruct Ho as [Hm [(Hw & Hh & Hle & Hm' & ->) | (Hw & Hh & Hle & Hm' & ->)]].
    + exists c. repeat split; auto; try lia.
    + exists (c - 3).
      replace (c - 3 + 3) with c by lia.
      repeat split; auto; try lia.
      now apply weekday_monday_to_friday.
  - intros (f & Hw & Hf & Hm & Hpf & Hpm & [[Hh ->] | [Hh ->]]).
    + exists f. split; [apply days_of_year_In; lia |].
      apply long_weekend_at_In. split; [assumption |]. left.
      repeat split; auto; lia.
    + exists (f + 3). split; [apply days_of_year_In; lia |].
      apply long_weekend_at_In. split; [assumption |]. right.
      replace (f + 3 - 3) with f by lia.
      repeat split; auto; try lia.
      now apply weekday_friday_to_monday.
Qed.

(** X7: the leave day of a long-weekend opportunity is a single Monday or
    Friday of the requested year that is no holiday and lies in a preferred
    month; it costs 1 leave day for 4 days off. *)
Theorem long_weekend_leave_day (self : LeaveOptimizer)
    (preferred_months : list Z) :
  Forall (fun o =>
            exists d,
              leave_dates o = [d]
              /\ (weekday d = 0 \/ weekday d = 4)
              /\ year_of d = year self
              /\ is_holiday self d = false
              /\ mem (month d) preferred_months = true
              /\ leaves_needed o = 1 /\ total_days_off o = 4)
    (find_long_weekend_opportunities self preferred_months).
Proof.
  apply Forall_forall. intros o Ho.
  rewrite find_long_weekend_flat_map in Ho. apply in_flat_map in Ho.
  destruct Ho as [c [Hc Ho]]. apply days_of_year_In in Hc.
  apply long_weekend_at_In in Ho.
  destruct Ho as [Hm [(Hw & Hh & Hle & Hm' & ->) | (Hw & Hh & Hle & Hm' & ->)]].
  - exists (c + 3). simpl. repeat split; auto.
    + left. now apply weekday_friday_to_monday.
    + apply year_of_within. unfold within_year. lia.
  - exists (c - 3). simpl. repeat split; auto.
    + right. now apply weekday_monday_to_friday.
    + apply year_of_within. unfold within_year. lia.
Qed.

(** ** Further properties: sorting and selection *)

Lemma insert_desc_of_efficiency (q : Q) (x : opportunity)
    (l : list opportunity) :
  of_efficiency q (insert_desc x l) = of_efficiency q (x :: l).
Proof.
  unfold of_efficiency.
  induction l as [|y rest IH]; simpl; [reflexivity |].
  destruct (Qle_bool (efficiency y) (efficiency x)) eqn:Hle; [reflexivity |].
  simpl. rewrite IH. simpl.
  destruct (Qeq_bool (efficiency y) q) eqn:Ey; [| reflexivity].
  destruct (Qeq_bool (efficiency x) q) eqn:Ex; [| reflexivity].
  exfalso. apply Qeq_bool_iff in Ey. apply Qeq_bool_iff in Ex.
  assert (Hyx : (efficiency y <= efficiency x)%Q)
    by (rewrite Ey, Ex; apply Qle_refl).
  apply Qle_bool_iff in Hyx. congruence.
Qed.

(** X8: the sort of the selector rearranges the opportunities into
    descending efficiency and is stable: the opportunities of any one
    efficiency keep the order detection gave them. *)
Theorem sort_by_efficiency_stable (l : list opportunity) :
  Permutation l (sort_by_efficiency l)
  /\ StronglySorted eff_ge (sort_by_efficiency l)
  /\ forall q, of_efficiency q (sort_by_efficiency l) = of_efficiency q l.
Proof.
  split; [apply sort_by_efficiency_perm |].
  split; [apply sort_by_efficiency_sorted |].
  intros q. induction l as [|x l IH]; simpl; [reflexivity |].
  rewrite insert_desc_of_efficiency. unfold of_efficiency in *. simpl.
  now rewrite IH.
Qed.

(** X9: [has_date_overlap] holds exactly when some new date belongs to
    some existing range; between two single lists of dates it is
    symmetric. *)
Theorem has_date_overlap_shared_date (new_dates : list date)
    (existing_ranges : list (list date)) :
  (has_date_overlap new_dates existing_ranges = true
   <-> exists d r, In d new_dates /\ In r existing_ranges /\ In d r)
  /\ forall other : list date,
       has_date_overlap new_dates [other] = has_date_overlap other [new_dates].
Proof.
  split.
  - rewrite has_date_overlap_true. split.
    + intros [d [Hd Hin]]. apply in_concat in Hin.
      destruct Hin as [r [Hr Hdr]]. eauto.
    + intros [d [r [Hd [Hr Hdr]]]]. exists d. split; [assumption |].
      apply in_concat. eauto.
  - intros other.
    destruct (has_date_overlap new_dates [other]) eqn:E1;
      destruct (has_date_overlap other [new_dates]) eqn:E2; try reflexivity.
    + apply has_date_overlap_true in E1. destruct E1 as [d [Hd Hin]].
      rewrite has_date_overlap_false in E2. simpl in Hin, E2.
      rewrite app_nil_r in *. now elim (E2 d Hin).
    + apply has_date_overlap_true in E2. destruct E2 as [d [Hd Hin]].
      rewrite has_date_overlap_false in E1. simpl in Hin, E1.
      rewrite app_nil_r in *. now elim (E1 d Hin).
Qed.

Lemma select_loop_accounts (n : Z) (l : list opportunity) (st : plan) :
  Forall emitted_shape l -> plan_accounts st ->
  plan_accounts (select_loop n l st).
Proof.
  intros Hsh. rewrite Forall_forall in Hsh.
  apply select_loop_invariant.
  intros st' o Hin (Hu & Hd & Hb) _ _.
  destruct (Hsh o Hin) as [Hn Hc Ht _ _ _].
  unfold plan_accounts, accept.
  cbn [selected_leaves total_leaves_used days_off used_date_ranges].
  rewrite !length_app. cbn [length]. rewrite Ht, Hn in *. lia.
Qed.

Lemma optimal_plan_accounts (self : LeaveOptimizer) (num_leaves : Z)
    (preferred_months : option (list Z)) :
  plan_accounts (optimal_plan self num_leaves preferred_months).
Proof.
  apply select_loop_accounts; [apply sorted_opportunities_shape |].
  unfold plan_accounts. simpl. lia.
Qed.

(** X10: in every result of [get_optimal_leave_days] the leaves used are
    the number of dates returned, the days off are the leaves used plus 3
    for each accepted opportunity, and so lie between 7/4 of and 4 times the
    leaves used. *)
Theorem result_accounts (self : LeaveOptimizer) (num_leaves : Z)
    (preferred_months : option (list Z)) :
  let '(selected, total, used) :=
    get_optimal_leave_days self num_leaves preferred_months in
  let accepted :=
    length (used_date_ranges
              (optimal_plan self num_leaves preferred_months)) in
  used = Z.of_nat (length selected)
  /\ total = used + 3 * Z.of_nat accepted
  /\ 7 * used <= 4 * total <= 16 * used.
Proof.
  unfold get_optimal_leave_days.
  destruct (optimal_plan_accounts self num_leaves preferred_months)
    as (Hu & Hd & Hb).
  repeat split; try assumption; lia.
Qed.

Lemma select_loop_origin (n : Z) (l : list opportunity) (st : plan) :
  Forall (fun r => exists o, In o l /\ leave_dates o = r) (used_date_ranges st) ->
  Forall (fun r => exists o, In o l /\ leave_dates o = r)
    (used_date_ranges (select_loop n l st)).
Proof.
  apply (select_loop_invariant
           (fun st => Forall (fun r => exists o, In o l /\ leave_dates o = r)
                        (used_date_ranges st))).
  intros st' o Hin Hst _ _. simpl. apply Forall_app. split; [assumption |].
  constructor; [eauto | constructor].
Qed.

Lemma optimal_plan_origin (self : LeaveOptimizer) (num_leaves : Z)
    (preferred_months : option (list Z)) :
  Forall (fun r => exists o,
              In o (all_opportunities self (resolve_months preferred_months))
              /\ leave_dates o = r)
    (used_date_ranges (optimal_plan self num_leaves preferred_months)).
Proof.
  unfold optimal_plan, selector.
  eapply Forall_impl; [| apply select_loop_origin; constructor].
  intros r [o [Hin Hr]]. exists o. split; [| assumption].
  eapply Permutation_in; [| exact Hin].
  apply Permutation_sym, sort_by_efficiency_perm.
Qed.

(** X11: the selector invents nothing: every accepted range is the whole
    [leave_dates] of a detected opportunity, and every date returned is a
    leave date of a detected opportunity. *)
Theorem selected_from_detection (self : LeaveOptimizer) (num_leaves : Z)
    (preferred_months : option (list Z)) :
  let detected := all_opportunities self (resolve_months preferred_months) in
  Forall (fun r => exists o, In o detected /\ leave_dates o = r)
    (used_date_ranges (optimal_plan self num_leaves preferred_months))
  /\ Forall (fun d => exists o, In o detected /\ In d (leave_dates o))
       (fst (fst (get_optimal_leave_days self num_leaves preferred_months))).
Proof.
  intros detected.
  pose proof (optimal_plan_origin self num_leaves preferred_months) as Ho.
  split; [exact Ho |].
  destruct (optimal_plan_inv self num_leaves preferred_months) as [Hsel _].
  simpl. rewrite Hsel. apply Forall_forall. intros d Hd.
  apply in_concat in Hd. destruct Hd as [r [Hr Hdr]].
  rewrite Forall_forall in Ho. destruct (Ho r Hr) as [o [Hin <-]]. eauto.
Qed.

(** A scan only adds to the plan. *)
Lemma select_loop_grows (n : Z) (l : list opportunity) (st : plan) :
  Forall (fun o => 0 <= leaves_needed o) l ->
  incl (used_date_ranges st) (used_date_ranges (select_loop n l st))
  /\ total_leaves_used st <= total_leaves_used (select_loop n l st).
Proof.
  intros Hpos. rewrite Forall_forall in Hpos.
  apply (select_loop_invariant
           (fun st' => incl (used_date_ranges st) (used_date_ranges st')
                       /\ total_leaves_used st <= total_leaves_used st')).
  - intros st' o Hin [Hincl Hle] _ _. simpl. split.
    + now apply incl_appl.
    + specialize (Hpos o Hin). simpl in Hpos. lia.
  - split; [apply incl_refl | lia].
Qed.

Lemma has_date_overlap_incl (dates : list date) (a b : list (list date)) :
  incl a b -> has_date_overlap dates a = true ->
  has_date_overlap dates b = true.
Proof.
  intros Hincl Ha. apply has_date_overlap_true in Ha.
  destruct Ha as [d [Hd Hin]]. apply in_concat in Hin.
  destruct Hin as [r [Hr Hdr]].
  apply has_date_overlap_true. exists d. split; [assumption |].
  apply in_concat. exists r. split; [now apply Hincl | assumption].
Qed.

(** At the end of a scan nothing more can be added. *)
Lemma select_loop_maximal (n : Z) (l : list opportunity) :
  Forall (fun o => 0 <= leaves_needed o /\ leave_dates o <> []) l ->
  forall (st : plan) (o : opportunity),
    In o l ->
    has_date_overlap (leave_dates o)
      (used_date_ranges (select_loop n l st)) = true
    \/ n < total_leaves_used (select_loop n l st) + leaves_needed o.
Proof.
  induction l as [|x l IH]; intros Hl st o Hin; [destruct Hin |].
  inversion Hl as [|? ? [Hx Hne] Hl']; subst.
  rewrite select_loop_cons.
  destruct Hin as [<- | Hin]; [| now apply IH].
  assert (Hpos : Forall (fun o => 0 <= leaves_needed o) l)
    by (eapply Forall_impl; [| exact Hl']; now intros o [H _]).
  destruct (select_loop_grows n l (select_step n st x) Hpos) as [Hincl Hle].
  destruct (has_date_overlap (leave_dates x) (used_date_ranges st)) eqn:Hov.
  - left. rewrite select_step_overlap in * by assumption.
    now apply (has_date_overlap_incl _ (used_date_ranges st)).
  - destruct (Z_le_gt_dec (total_leaves_used st + leaves_needed x) n) as [Hfit|Hfit].
    + left. rewrite select_step_accept in * by assumption.
      destruct (leave_dates x) as [|d ds] eqn:Ed; [congruence |].
      apply has_date_overlap_true. exists d. split; [now left |].
      apply in_concat. exists (d :: ds). split; [| now left].
      apply Hincl. simpl. rewrite Ed. apply in_or_app. right. now left.
    + right. rewrite select_step_over_budget in * by lia. lia.
Qed.

Lemma emitted_selectable (l : list opportunity) :
  Forall emitted_shape l ->
  Forall (fun o => 0 <= leaves_needed o /\ leave_dates o <> []) l.
Proof.
  intros H. eapply Forall_impl; [| exact H].
  intros o [Hn Hc _ _ _ _]. split; [lia |].
  intros E. rewrite E in Hn. simpl in Hn. lia.
Qed.

Lemma optimal_plan_maximal (self : LeaveOptimizer) (num_leaves : Z)
    (preferred_months : option (list Z)) (o : opportunity) :
  In o (all_opportunities self (resolve_months preferred_months)) ->
  let st := optimal_plan self num_leaves preferred_months in
  has_date_overlap (leave_dates o) (used_date_ranges st) = true
  \/ num_leaves < total_leaves_used st + leaves_needed o.
Proof.
  intros Hin. unfold optimal_plan, selector.
  apply select_loop_maximal.
  - apply emitted_selectable, sorted_opportunities_shape.
  - eapply Permutation_in; [apply sort_by_efficiency_perm | exact Hin].
Qed.

(** X12: the greedy selection is maximal: at the end every detected
    opportunity shares a date with the selection (as the accepted ones do)
    or no longer fits what is left of the budget. *)
Theorem selection_is_maximal (self : LeaveOptimizer) (num_leaves : Z)
    (preferred_months : option (list Z)) :
  let '(selected, _, used) :=
    get_optimal_leave_days self num_leaves preferred_months in
  Forall (fun o =>
            (exists d, In d (leave_dates o) /\ In d selected)
            \/ num_leaves < used + leaves_needed o)
    (all_opportunities self (resolve_months preferred_months)).
Proof.
  unfold get_optimal_leave_days. apply Forall_forall. intros o Hin.
  destruct (optimal_plan_inv self num_leaves preferred_months) as [Hsel _].
  destruct (optimal_plan_maximal self num_leaves preferred_months o Hin)
    as [Hov | Hfull]; [left | now right].
  apply has_date_overlap_true in Hov. now rewrite Hsel.
Qed.

(** X13: when some detected opportunity needs no more leave days than the
    budget, [get_optimal_leave_days] returns at least one date. *)
Theorem fitting_opportunity_gives_dates (self : LeaveOptimizer)
    (num_leaves : Z) (preferred_months : option (list Z)) (o : opportunity) :
  In o (all_opportunities self (resolve_months preferred_months)) ->
  leaves_needed o <= num_leaves ->
  fst (fst (get_optimal_leave_days self num_leaves preferred_months)) <> [].
Proof.
  intros Hin Hfit Hempty. simpl in Hempty.
  destruct (optimal_plan_inv self num_leaves preferred_months) as [Hsel _].
  destruct (optimal_plan_accounts self num_leaves preferred_months)
    as (Hu & _ & _).
  destruct (optimal_plan_maximal self num_leaves preferred_months o Hin)
    as [Hov | Hfull].
  - apply has_date_overlap_true in Hov. destruct Hov as [d [_ Hd]].
    rewrite <- Hsel, Hempty in Hd. destruct Hd.
  - rewrite Hu, Hempty in Hfull. simpl in Hfull. lia.
Qed.

Lemma fitting_opportunity_gives_dates_witness :
  In christmas_bridge_2024 (all_opportunities uk_2024 (resolve_months None))
  /\ leaves_needed christmas_bridge_2024 <= 2
  /\ fst (fst (get_optimal_leave_days uk_2024 2 None)) <> [].
Proof.
  assert (Hin : In christmas_bridge_2024
                  (all_opportunities uk_2024 (resolve_months None)))
    by (vm_compute; auto 8).
  assert (Hfit : leaves_needed christmas_bridge_2024 <= 2) by (simpl; lia).
  split; [exact Hin |]. split; [exact Hfit |].
  exact (fitting_opportunity_gives_dates uk_2024 2 None
           christmas_bridge_2024 Hin Hfit).
Defined.

Lemma plan_extends_refl (a : plan) : plan_extends a a.
Proof.
  repeat split; try lia; exists []; now rewrite app_nil_r.
Qed.

Lemma plan_extends_trans (a b c : plan) :
  plan_extends a b -> plan_extends b c -> plan_extends a c.
Proof.
  intros ([s1 Hs1] & [r1 Hr1] & Hu1 & Hd1) ([s2 Hs2] & [r2 Hr2] & Hu2 & Hd2).
  repeat split; try lia.
  - exists (s1 ++ s2). now rewrite Hs2, Hs1, app_assoc.
  - exists (r1 ++ r2). now rewrite Hr2, Hr1, app_assoc.
Qed.

Lemma select_loop_extends_succ (n : Z) (l : list opportunity) :
  StronglySorted cost_le l ->
  Forall (fun o => 1 <= leaves_needed o /\ 0 <= total_days_off o) l ->
  forall st, plan_extends (select_loop n l st) (select_loop (n + 1) l st).
Proof.
  induction l as [|o l IH]; intros Hs Hpos st; [apply plan_extends_refl |].
  inversion Hs as [|? ? Hsl Hle]; subst.
  inversion Hpos as [|? ? [Hc Ht] Hposl]; subst.
  rewrite !select_loop_cons.
  destruct (has_date_overlap (leave_dates o) (used_date_ranges st)) eqn:Hov.
  { rewrite !select_step_overlap by assumption. now apply IH. }
  destruct (Z_le_gt_dec (total_leaves_used st + leaves_needed o) n) as [H|H].
  { rewrite !select_step_accept by (auto; lia). now apply IH. }
  destruct (Z.eq_dec (total_leaves_used st + leaves_needed o) (n + 1)) as [E|E].
  - rewrite (select_step_over_budget n) by lia.
    rewrite (select_step_accept (n + 1)) by (auto; lia).
    rewrite !select_loop_stuck.
    + unfold plan_extends, accept. simpl.
      repeat split; try lia; eexists; reflexivity.
    + eapply Forall_impl; [| exact Hposl]. simpl. intros o' [Hc' _]. lia.
    + rewrite Forall_forall in *. intros o' Hin.
      specialize (Hle o' Hin). unfold cost_le in Hle. lia.
  - rewrite !select_step_over_budget by lia. now apply IH.
Qed.

Lemma optimal_plan_extends_succ (self : LeaveOptimizer)
    (preferred_months : option (list Z)) (n : Z) :
  plan_extends (optimal_plan self n preferred_months)
    (optimal_plan self (n + 1) preferred_months).
Proof.
  unfold optimal_plan, selector.
  pose proof (sorted_opportunities_shape self (resolve_months preferred_months))
    as Hsh.
  apply select_loop_extends_succ.
  - apply sorted_by_cost; [assumption | apply sort_by_efficiency_sorted].
  - eapply Forall_impl; [| exact Hsh].
    intros o Ho. pose proof (shape_cost o Ho). pose proof (shape_days_off o Ho).
    simpl. lia.
Qed.

(** X14: a larger budget continues the plan of a smaller one: for budgets
    [n <= m] the dates returned for [n] are the first dates returned for
    [m], in the same order, and neither the days off nor the leaves used
    decrease. *)
Theorem larger_budget_extends (self : LeaveOptimizer)
    (preferred_months : option (list Z)) (n m : Z) :
  n <= m ->
  let '(selected_n, total_n, used_n) :=
    get_optimal_leave_days self n preferred_months in
  let '(selected_m, total_m, used_m) :=
    get_optimal_leave_days self m preferred_months in
  prefix_of selected_n selected_m /\ total_n <= total_m /\ used_n <= used_m.
Proof.
  intros Hnm. unfold get_optimal_leave_days.
  assert (Hext : plan_extends (optimal_plan self n preferred_months)
                   (optimal_plan self m preferred_months)).
  { replace m with (n + Z.of_nat (Z.to_nat (m - n))) by lia.
    induction (Z.to_nat (m - n)) as [|k IH].
    - replace (n + Z.of_nat 0) with n by lia. apply plan_extends_refl.
    - eapply plan_extends_trans; [exact IH |].
      replace (n + Z.of_nat (S k)) with (n + Z.of_nat k + 1) by lia.
      apply optimal_plan_extends_succ. }
  destruct Hext as (Hs & _ & Hu & Hd). auto.
Qed.

Lemma larger_budget_extends_witness :
  2 <= 7
  /\ prefix_of (fst (fst (get_optimal_leave_days uk_2024 2 None)))
       (fst (fst (get_optimal_leave_days uk_2024 7 None))).
Proof.
  assert (H : 2 <= 7) by lia. split; [exact H |].
  pose proof (larger_budget_extends uk_2024 None 2 7 H) as Hx.
  destruct (get_optimal_leave_days uk_2024 2 None) as [[s2 t2] u2].
  destruct (get_optimal_leave_days uk_2024 7 None) as [[s7 t7] u7].
  exact (proj1 Hx).
Defined.

(** With four leave days to spare no opportunity was turned down for the
    budget, so a larger budget changes nothing. *)
Lemma select_loop_saturated (n m : Z) (l : list opportunity) :
  n <= m ->
  Forall (fun o => 0 <= leaves_needed o <= 4) l ->
  forall st,
    total_leaves_used (select_loop n l st) + 4 <= n ->
    select_loop m l st = select_loop n l st.
Proof.
  intros Hnm.
  induction l as [|o l IH]; intros Hl st Hspare; [reflexivity |].
  inversion Hl as [|? ? Ho Hl']; subst.
  rewrite !select_loop_cons in *.
  assert (Hpos : Forall (fun o => 0 <= leaves_needed o) l)
    by (eapply Forall_impl; [| exact Hl']; simpl; intros; lia).
  destruct (has_date_overlap (leave_dates o) (used_date_ranges st)) eqn:Hov.
  - rewrite !select_step_overlap in * by assumption. now apply IH.
  - destruct (Z_le_gt_dec (total_leaves_used st + leaves_needed o) n) as [H|H].
    + rewrite (select_step_accept m) by (auto; lia).
      rewrite (select_step_accept n) in * by auto. now apply IH.
    + exfalso. rewrite (select_step_over_budget n) in Hspare by lia.
      destruct (select_loop_grows n l st Hpos) as [_ Hle]. lia.
Qed.

(** X15: when the result leaves four or more leave days unused, no larger
    budget changes it. *)
Theorem spare_budget_changes_nothing (self : LeaveOptimizer)
    (preferred_months : option (list Z)) (n m : Z) :
  n <= m ->
  snd (get_optimal_leave_days self n preferred_months) + 4 <= n ->
  get_optimal_leave_days self m preferred_months
  = get_optimal_leave_days self n preferred_months.
Proof.
  intros Hnm Hspare. unfold get_optimal_leave_days in *. simpl in Hspare.
  unfold optimal_plan, selector in *.
  rewrite (select_loop_saturated n m); auto.
  eapply Forall_impl; [| apply sorted_opportunities_shape].
  intros o Ho. pose proof (shape_cost o Ho). simpl. lia.
Qed.

Lemma spare_budget_changes_nothing_witness :
  20 <= 50
  /\ snd (get_optimal_leave_days uk_2024 20 (Some [1])) + 4 <= 20
  /\ get_optimal_leave_days uk_2024 50 (Some [1])
     = get_optimal_leave_days uk_2024 20 (Some [1]).
Proof.
  assert (H1 : 20 <= 50) by lia.
  assert (H2 : snd (get_optimal_leave_days uk_2024 20 (Some [1])) + 4 <= 20)
    by (vm_compute; discriminate).
  split; [exact H1 |]. split; [exact H2 |].
  exact (spare_budget_changes_nothing uk_2024 (Some [1]) 20 50 H1 H2).
Defined.

Lemma selected_date_origin (self : LeaveOptimizer) (num_leaves : Z)
    (preferred_months : option (list Z)) (d : date) :
  In d (selected_leaves (optimal_plan self num_leaves preferred_months)) ->
  exists o,
    In o (all_opportunities self (resolve_months preferred_months))
    /\ In d (leave_dates o).
Proof.
  intros Hd.
  destruct (optimal_plan_inv self num_leaves preferred_months) as [Hsel _].
  rewrite Hsel in Hd. apply in_concat in Hd. destruct Hd as [r [Hr Hdr]].
  pose proof (optimal_plan_origin self num_leaves preferred_months) as Ho.
  rewrite Forall_forall in Ho. destruct (Ho r Hr) as [o [Hin <-]]. eauto.
Qed.

Lemma selected_date_working_day (self : LeaveOptimizer) (num_leaves : Z)
    (preferred_months : option (list Z)) (d : date) :
  In d (selected_leaves (optimal_plan self num_leaves preferred_months)) ->
  is_weekend d = false.
Proof.
  intros Hd. apply selected_date_origin in Hd. destruct Hd as [o [Ho Hd]].
  pose proof (all_opportunities_shape self (resolve_months preferred_months))
    as Hsh.
  rewrite Forall_forall in Hsh.
  pose proof (shape_working_days o (Hsh o Ho)) as Hw.
  rewrite Forall_forall in Hw. now apply Hw.
Qed.

(** X16: when every holiday of the table lies in the requested year, every
    date [get_optimal_leave_days] returns lies no more than four days
    before January 1 and no more than four days after December 31. *)
Theorem selected_near_the_year (self : LeaveOptimizer) (num_leaves : Z)
    (preferred_months : option (list Z)) :
  Forall (within_year (year self)) (holiday_dates self) ->
  Forall (fun d => ymd2ord (year self) 1 1 - 4 <= d
                   <= ymd2ord (year self) 12 31 + 4)
    (fst (fst (get_optimal_leave_days self num_leaves preferred_months))).
Proof.
  intros Hhol. rewrite Forall_forall in Hhol.
  apply Forall_forall. intros d Hd. simpl in Hd.
  apply selected_date_origin in Hd. destruct Hd as [o [Ho Hd]].
  unfold all_opportunities in Ho. apply in_app_or in Ho.
  destruct Ho as [Ho | Ho].
  - rewrite find_bridge_flat_map in Ho. apply in_flat_map in Ho.
    destruct Ho as [h [Hh Ho]].
    unfold preferred_holidays in Hh. apply filter_In in Hh.
    destruct Hh as [Hh _]. specialize (Hhol h Hh). unfold within_year in Hhol.
    pose proof (bridges_of_near self h o Ho) as Hnear.
    rewrite Forall_forall in Hnear. specialize (Hnear d Hd). lia.
  - rewrite find_long_weekend_flat_map in Ho. apply in_flat_map in Ho.
    destruct Ho as [c [Hc Ho]]. apply days_of_year_In in Hc.
    apply long_weekend_at_In in Ho.
    destruct Ho as [_ [(_ & _ & Hle & _ & ->) | (_ & _ & Hle & _ & ->)]];
      simpl in Hd; destruct Hd as [<- | []]; lia.
Qed.

Lemma selected_near_the_year_witness :
  Forall (within_year (year uk_2024)) (holiday_dates uk_2024)
  /\ Forall (fun d => ymd2ord 2024 1 1 - 4 <= d <= ymd2ord 2024 12 31 + 4)
       (fst (fst (get_optimal_leave_days uk_2024 30 None))).
Proof.
  assert (H : Forall (within_year (year uk_2024)) (holiday_dates uk_2024)).
  { unfold uk_2024, init, holiday_dates. cbn [holidays map fst year].
    repeat (constructor;
            [unfold within_year; split; vm_compute; discriminate |]).
    constructor. }
  split; [exact H |].
  exact (selected_near_the_year uk_2024 30 None H).
Defined.

(** X17: in the calendar view built from the optimiser's holidays and its
    result, the cell of a returned leave date never carries the weekend
    class: it has the class and title of an optimal leave day, unless the
    date is itself a holiday, in which case it is shown as the holiday
    only. *)
Theorem leave_date_cell (self : LeaveOptimizer) (num_leaves : Z)
    (preferred_months : option (list Z)) :
  let optimal_leaves :=
    fst (fst (get_optimal_leave_days self num_leaves preferred_months)) in
  Forall (fun d =>
            View.day_cell (holidays self) optimal_leaves d
            = if is_holiday self d
              then ("day-cell holiday"%string, lookup_name (holidays self) d)
              else ("day-cell optimal-leave"%string,
                    "Optimal Leave Day"%string))
    optimal_leaves.
Proof.
  intros optimal_leaves. apply Forall_forall. intros d Hd.
  unfold View.day_cell.
  rewrite (selected_date_working_day self num_leaves preferred_months d Hd).
  unfold is_holiday, holiday_dates.
  destruct (mem d (map fst (holidays self))); [reflexivity |].
  replace (mem d optimal_leaves) with true
    by (symmetry; now apply mem_true_iff).
  reflexivity.
Qed.

(** X18: whatever months are chosen in the multiselect, [main] passes
    [get_optimal_leave_days] a non-empty list of month numbers between 1
    and 12; for a non-empty choice these are the numbers of the chosen
    months, in the order chosen. *)
Theorem preferred_month_nums_valid (selection : list string) :
  Forall (fun name => In name App.month_names) selection ->
  let nums := App.preferred_month_nums selection in
  nums <> []
  /\ Forall (fun m => 1 <= m <= 12) nums
  /\ (selection <> [] ->
      map (fun m => nth (Z.to_nat (m - 1)) App.month_names EmptyString) nums
      = selection).
Proof.
  intros Hsel nums.
  assert (Hnum : forall name, In name App.month_names ->
            1 <= App.month_num App.month_name_to_num name <= 12
            /\ nth (Z.to_nat (App.month_num App.month_name_to_num name - 1))
                 App.month_names EmptyString = name).
  { intros name Hin. simpl in Hin.
    repeat (destruct Hin as [<- | Hin]; [split; [vm_compute; split; discriminate | reflexivity] |]).
    destruct Hin. }
  destruct selection as [|s rest].
  - split; [discriminate |]. split; [| congruence].
    vm_compute. repeat (constructor; [split; discriminate |]). constructor.
  - unfold nums, App.preferred_month_nums. cbn [is_empty negb].
    split; [discriminate |]. split.
    + apply Forall_map. eapply Forall_impl; [| exact Hsel].
      intros name Hin. now apply Hnum.
    + intros _. rewrite map_map. rewrite <- (map_id (s :: rest)) at 2.
      apply map_ext_in. intros name Hin.
      rewrite Forall_forall in Hsel. now apply Hnum, Hsel.
Qed.

Lemma preferred_month_nums_valid_witness :
  Forall (fun name => In name App.month_names) ["June"; "March"]%string
  /\ App.preferred_month_nums ["June"; "March"]%string = [6; 3].
Proof.
  assert (H : Forall (fun name => In name App.month_names)
                ["June"; "March"]%string).
  { constructor; [simpl; tauto |]. constructor; [simpl; tauto | constructor]. }
  split; [exact H |].
  destruct (preferred_month_nums_valid ["June"; "March"]%string H)
    as (_ & _ & _).
  reflexivity.
Defined.

(** ** Further properties: the month grids *)

Lemma in_weeks_concat (fuel : nat) :
  forall days : list Z,
    (length days <= fuel)%nat -> concat (Grid.in_weeks fuel days) = days.
Proof.
  induction fuel as [|fuel IH]; intros days Hlen.
  - destruct days; [reflexivity | simpl in Hlen; lia].
  - destruct days as [|d ds]; [reflexivity |].
    cbn [Grid.in_weeks concat]. rewrite IH.
    + apply firstn_skipn.
    + rewrite length_skipn. cbn [length] in *. lia.
Qed.

Lemma in_weeks_full (k : nat) :
  forall (fuel : nat) (days : list Z),
    length days = (7 * k)%nat -> (length days <= fuel)%nat ->
    Forall (fun week => length week = 7%nat) (Grid.in_weeks fuel days).
Proof.
  induction k as [|k IH]; intros fuel days Hlen Hfuel.
  - destruct days; [| simpl in Hlen; lia].
    destruct fuel; constructor.
  - destruct fuel as [|fuel]; [lia |].
    destruct days as [|d ds]; [simpl in Hlen; lia |].
    cbn [Grid.in_weeks]. constructor.
    + rewrite length_firstn. lia.
    + apply IH; rewrite length_skipn; lia.
Qed.

Lemma days_in_month_range (y m : Z) :
  1 <= m <= 12 -> 28 <= Grid.days_in_month y m <= 31.
Proof.
  intros Hm. unfold Grid.days_in_month.
  assert (Hc : m = 1 \/ m = 2 \/ m = 3 \/ m = 4 \/ m = 5 \/ m = 6 \/ m = 7
               \/ m = 8 \/ m = 9 \/ m = 10 \/ m = 11 \/ m = 12) by lia.
  repeat match goal with H : _ \/ _ |- _ => destruct H end; subst m;
    destruct (is_leap y); vm_compute; split; discriminate.
Qed.

Lemma itermonthdays_length (y m : Z) :
  1 <= m <= 12 ->
  exists k, length (Grid.itermonthdays y m) = (7 * k)%nat.
Proof.
  intros Hm. pose proof (days_in_month_range y m Hm) as Hn.
  pose proof (weekday_range (ymd2ord y m 1)) as Hw.
  unfold Grid.itermonthdays. cbv zeta.
  set (day1 := weekday (ymd2ord y m 1)) in *.
  set (ndays := Grid.days_in_month y m) in *.
  rewrite !length_app, !repeat_length, length_map, length_seq.
  exists (Z.to_nat ((day1 mod 7 + ndays + (- day1 - ndays) mod 7) / 7)).
  apply Nat2Z.inj. rewrite !Nat2Z.inj_add, Nat2Z.inj_mul.
  rewrite !Z2Nat.id. 
  - change (Z.of_nat 7) with 7. Z.div_mod_to_equations. lia.
  - Z.div_mod_to_equations. lia.
  - Z.div_mod_to_equations. lia.
  - lia.
  - Z.div_mod_to_equations. lia.
Qed.

Lemma month_cells_flat (y : Z) (hol : list (date * string))
    (opt : list date) (m : Z) :
  Grid.month_cells y hol opt m
  = map (fun day =>
           if day =? 0 then Grid.Blank
           else
             let '(day_class, title) :=
               View.day_cell hol opt (ymd2ord y m day) in
             Grid.Day day_class title day)
      (Grid.itermonthdays y m).
Proof.
  unfold Grid.month_cells, Grid.monthcalendar. cbv zeta.
  rewrite flat_map_concat_map, <- concat_map, in_weeks_concat by lia.
  reflexivity.
Qed.

(** Evaluates the table lookups and comparisons on literals of the goal. *)
Ltac calc_tables :=
  repeat match goal with
  | |- context [tbl ?t ?i] =>
      let v := eval vm_compute in (tbl t i) in change (tbl t i) with v
  | |- context [?a <? ?b] =>
      let v := eval vm_compute in (a <? b) in change (a <? b) with v
  | |- context [?a =? ?b] =>
      let v := eval vm_compute in (a =? b) in change (a =? b) with v
  end;
  cbn [andb].

Lemma month_start (y m : Z) :
  1 <= m <= 12 ->
  ymd2ord y m 1
  = days_before_year y + 1
    + nth (Z.to_nat m) [0; 0; 31; 59; 90; 120; 151; 181; 212; 243; 273; 304; 334] 0
    + (if (2 <? m) && is_leap y then 1 else 0).
Proof.
  intros Hm.
  assert (Hc : m = 1 \/ m = 2 \/ m = 3 \/ m = 4 \/ m = 5 \/ m = 6 \/ m = 7
               \/ m = 8 \/ m = 9 \/ m = 10 \/ m = 11 \/ m = 12) by lia.
  unfold ymd2ord, days_before_month.
  repeat match goal with H : _ \/ _ |- _ => destruct H end; subst m;
    calc_tables; destruct (is_leap y);
    match goal with
    | |- context [nth ?i ?t 0] =>
        let v := eval vm_compute in (nth i t 0) in change (nth i t 0) with v
    end; lia.
Qed.

Lemma days_from_app (a b : date) (n k : nat) :
  b = a + Z.of_nat n ->
  days_from 1 a n ++ days_from 1 b k = days_from 1 a (n + k).
Proof.
  revert a b. induction n as [|n IH]; intros a b ->; simpl.
  - f_equal. lia.
  - f_equal. apply IH. lia.
Qed.

Lemma days_from_seq (y m : Z) (n : nat) :
  forall s : nat,
    flat_map (fun day => if day =? 0 then [] else [ymd2ord y m day])
      (map Z.of_nat (seq (S s) n))
    = days_from 1 (ymd2ord y m (Z.of_nat (S s))) n.
Proof.
  induction n as [|n IH]; intros s; [reflexivity |].
  cbn [seq map flat_map days_from].
  replace (Z.of_nat (S s) =? 0) with false by (symmetry; apply Z.eqb_neq; lia).
  cbn [app]. f_equal. rewrite IH. f_equal.
  unfold ymd2ord. lia.
Qed.

Lemma blanks_no_date (A : Type) (f : Z -> list A) (k : nat) :
  f 0 = [] -> flat_map f (repeat 0 k) = [].
Proof.
  intros H0. induction k as [|k IH]; simpl; [reflexivity |].
  now rewrite H0, IH.
Qed.

Lemma month_grid_dates (y : Z) (hol : list (date * string))
    (opt : list date) (m : Z) :
  Grid.grid_dates y (m, Grid.month_cells y hol opt m)
  = days_from 1 (ymd2ord y m 1) (Z.to_nat (Grid.days_in_month y m)).
Proof.
  unfold Grid.grid_dates. cbn [fst snd].
  rewrite month_cells_flat, flat_map_concat_map, map_map,
    <- flat_map_concat_map.
  rewrite (flat_map_ext _
             (fun day => if day =? 0 then [] else [ymd2ord y m day])).
  - unfold Grid.itermonthdays. cbv zeta.
    rewrite !flat_map_app, !blanks_no_date by reflexivity.
    rewrite app_nil_r. cbn [app].
    apply (days_from_seq y m _ 0%nat).
  - intros day. destruct (day =? 0); [reflexivity |].
    now destruct (View.day_cell hol opt (ymd2ord y m day)).
Qed.

Lemma shown_dates_year (y : Z) (hol : list (date * string))
    (opt : list date) :
  flat_map (Grid.grid_dates y) (Grid.calendar_grids y hol opt)
  = days_from 1 (ymd2ord y 1 1)
      (Z.to_nat (ymd2ord y 12 31 - ymd2ord y 1 1 + 1)).
Proof.
  rewrite year_length.
  unfold Grid.calendar_grids, Grid.quarters.
  cbn [flat_map map app]. rewrite !month_grid_dates.
  rewrite !month_start by lia. unfold Grid.days_in_month.
  calc_tables.
  repeat match goal with
  | |- context [nth ?i ?t 0] =>
      let v := eval vm_compute in (nth i t 0) in change (nth i t 0) with v
  end.
  rewrite app_nil_r.
  destruct (is_leap y); repeat (rewrite days_from_app by lia); f_equal; lia.
Qed.

Lemma monthcalendar_full_weeks (y m : Z) :
  1 <= m <= 12 ->
  Forall (fun week => length week = 7%nat) (Grid.monthcalendar y m).
Proof.
  intros Hm. destruct (itermonthdays_length y m Hm) as [k Hk].
  unfold Grid.monthcalendar. cbv zeta.
  apply (in_weeks_full k); [exact Hk | lia].
Qed.

(** X19: the calendar view has one grid per month, January to December in
    this order; every week of a grid has seven cells; and the day cells,
    read grid by grid, are the days of the requested year from January 1 to
    December 31 in chronological order. *)
Theorem calendar_shows_the_year (y : Z) (holidays_dict : list (date * string))
    (optimal_leaves : list date) :
  let grids := Grid.calendar_grids y holidays_dict optimal_leaves in
  map fst grids = all_months
  /\ Forall (fun month =>
               Forall (fun week => length week = 7%nat)
                 (Grid.monthcalendar y month))
       (map fst grids)
  /\ flat_map (Grid.grid_dates y) grids
     = days_from 1 (ymd2ord y 1 1)
         (Z.to_nat (ymd2ord y 12 31 - ymd2ord y 1 1 + 1)).
Proof.
  intros grids. split; [reflexivity |]. split; [| apply shown_dates_year].
  unfold grids, Grid.calendar_grids, Grid.quarters. cbn [flat_map map app fst].
  repeat (constructor; [apply monthcalendar_full_weeks; lia |]).
  constructor.
Qed.

(** X20: a date has a day cell in the calendar view if and only if its year
    is the requested one, and then it has exactly one; a leave date the
    optimiser returns from the year before or after is not shown. *)
Theorem calendar_date_shown (y : Z) (holidays_dict : list (date * string))
    (optimal_leaves : list date) (d : date) :
  let shown :=
    flat_map (Grid.grid_dates y)
      (Grid.calendar_grids y holidays_dict optimal_leaves) in
  (In d shown <-> year_of d = y) /\ NoDup shown.
Proof.
  intros shown. unfold shown. rewrite shown_dates_year. split.
  - rewrite days_of_year_In, <- within_year_iff. reflexivity.
  - generalize (Z.to_nat (ymd2ord y 12 31 - ymd2ord y 1 1 + 1)).
    generalize (ymd2ord y 1 1).
    intros a n. revert a. induction n as [|n IH]; intros a; simpl;
      constructor; [| apply IH].
    intros Hin. apply days_from_In in Hin. destruct Hin as [i [_ Hi]]. lia.
Qed.
